(** * pinocchio.spec: the nose "spec" plugin, embedded and verified

    A shallow embedding of [pinocchio/spec.py].  Python 2 byte strings are
    [string] (a sequence of 8-bit [ascii]); slices take integer indices in
    [Z], negative ones counting from the end; an exception raised by the
    code is a [Raise] result; the plugin and its switchable output stream
    are records threaded through a small state-and-exception monad. *)

From Stdlib Require Import ZArith Ascii String List Lia.
From stdpp Require Import base strings gmap.

Open Scope string_scope.

(** ** Exceptions and results *)

Inductive exn : Type :=
| IndexError
| KeyError (key : string)
| AttributeError (attr : string)
| ForeignError (name : string).   (* raised by code outside the module *)

Inductive result (A : Type) : Type :=
| Ok (a : A)
| Raise (e : exn).

Arguments Ok {A} a.
Arguments Raise {A} e.

Definition result_bind {A B} (r : result A) (k : A -> result B) : result B :=
  match r with
  | Ok a => k a
  | Raise e => Raise e
  end.

Definition result_map {A B} (f : A -> B) (r : result A) : result B :=
  result_bind r (fun a => Ok (f a)).

(** The values of a list of computations done from left to right, or the
    first exception one of them raises. *)
Fixpoint result_all {A} (rs : list (result A)) : result (list A) :=
  match rs with
  | [] => Ok []
  | r :: rest =>
      result_bind r (fun a => result_map (cons a) (result_all rest))
  end.

#[global] Instance exn_eq_dec : EqDecision exn.
Proof. solve_decision. Defined.
#[global] Instance result_eq_dec {A} `{EqDecision A} : EqDecision (result A).
Proof. solve_decision. Defined.

(** ** Python 2 [str] primitives used by the plugin *)

Module PyStr.

Fixpoint str_take (n : nat) (s : string) : string :=
  match n, s with
  | S n', String c s' => String c (str_take n' s')
  | _, _ => ""
  end.

Fixpoint str_drop (n : nat) (s : string) : string :=
  match n, s with
  | S n', String _ s' => str_drop n' s'
  | _, _ => s
  end.

Definition len (s : string) : Z := Z.of_nat (String.length s).

(** A slice bound [i] of a sequence of length [n]: a negative bound counts
    from the end, and every bound is clamped into [0..n]. *)
Definition clamp_index (n i : Z) : Z :=
  if (i <? 0)%Z then Z.max 0 (i + n) else Z.min i n.

(** [s[start:stop]]; an omitted bound is [None]. *)
Definition slice (start stop : option Z) (s : string) : string :=
  let n := len s in
  let lo := match start with None => 0%Z | Some i => clamp_index n i end in
  let hi := match stop with None => n | Some j => clamp_index n j end in
  str_take (Z.to_nat (hi - lo)) (str_drop (Z.to_nat lo) s).

(** [s[i]]: a one-character string, or [IndexError] out of range. *)
Definition getitem (s : string) (i : Z) : result string :=
  let n := len s in
  let j := if (i <? 0)%Z then (i + n)%Z else i in
  if ((0 <=? j) && (j <? n))%Z
  then Ok (str_take 1 (str_drop (Z.to_nat j) s))
  else Raise IndexError.

Fixpoint starts_with (p s : string) : bool :=
  match p, s with
  | "", _ => true
  | String a p', String b s' => if Ascii.eqb a b then starts_with p' s' else false
  | String _ _, "" => false
  end.

Definition is_upper (c : ascii) : bool :=
  let n := N_of_ascii c in ((65 <=? n) && (n <=? 90))%N.

Definition is_lower (c : ascii) : bool :=
  let n := N_of_ascii c in ((97 <=? n) && (n <=? 122))%N.

(** [tolower]/[toupper] of the C locale, in which Python 2 starts. *)
Definition lower_char (c : ascii) : ascii :=
  if is_upper c then ascii_of_N (N_of_ascii c + 32) else c.

Definition upper_char (c : ascii) : ascii :=
  if is_lower c then ascii_of_N (N_of_ascii c - 32) else c.

Fixpoint map_chars (f : ascii -> ascii) (s : string) : string :=
  match s with
  | "" => ""
  | String c s' => String (f c) (map_chars f s')
  end.

Definition lower (s : string) : string := map_chars lower_char s.

(** [s.capitalize()]: first character upper-cased, the rest lower-cased. *)
Definition capitalize (s : string) : string :=
  match s with
  | "" => ""
  | String c s' => String (upper_char c) (lower s')
  end.

(** [s.replace(old, new)]: every non-overlapping occurrence of [old],
    found scanning from the left, becomes [new].  [skip] counts the
    characters of a match that are still to be consumed. *)
Fixpoint replace_from (old new : string) (skip : nat) (s : string) : string :=
  match s with
  | "" => ""
  | String c s' =>
      match skip with
      | S k => replace_from old new k s'
      | O =>
          if starts_with old s
          then new ++ replace_from old new (String.length old - 1) s'
          else String c (replace_from old new 0 s')
      end
  end.

(** With an empty [old], Python puts [new] before every character and at
    the end. *)
Fixpoint interleave (new s : string) : string :=
  match s with
  | "" => new
  | String c s' => new ++ String c (interleave new s')
  end.

Definition replace (old new s : string) : string :=
  match old with
  | "" => interleave new s
  | String _ _ => replace_from old new 0 s
  end.

Fixpoint contains_char (c : ascii) (s : string) : bool :=
  match s with
  | "" => false
  | String a s' => if Ascii.eqb a c then true else contains_char c s'
  end.

(** [sep.join(items)] *)
Fixpoint join (sep : string) (items : list string) : string :=
  match items with
  | [] => ""
  | [x] => x
  | x :: rest => x ++ sep ++ join sep rest
  end.

Definition LF : ascii := "010"%char.
Definition CR : ascii := "013"%char.

(** [s.splitlines(True)] on a byte string: a line ends at "\n", "\r" or
    "\r\n", and keeps its terminator.  [cur] is the line read so far. *)
Fixpoint splitlines_from (cur s : string) : list string :=
  match s with
  | "" => match cur with "" => [] | _ => [cur] end
  | String c s' =>
      if Ascii.eqb c LF then (cur ++ String LF "") :: splitlines_from "" s'
      else if Ascii.eqb c CR then
        match s' with
        | String d s'' =>
            if Ascii.eqb d LF
            then (cur ++ String CR (String LF "")) :: splitlines_from "" s''
            else (cur ++ String CR "") :: splitlines_from "" s'
        | "" => (cur ++ String CR "") :: splitlines_from "" s'
        end
      else splitlines_from (cur ++ String c "") s'
  end.

Definition splitlines_keepends (s : string) : list string :=
  splitlines_from "" s.

(** The characters [str.strip()] removes: space, \t, \n, \v, \f, \r. *)
Definition is_space (c : ascii) : bool :=
  let n := N_of_ascii c in ((n =? 32) || ((9 <=? n) && (n <=? 13)))%N.

Fixpoint lstrip (s : string) : string :=
  match s with
  | "" => ""
  | String c s' => if is_space c then lstrip s' else s
  end.

Fixpoint rstrip (s : string) : string :=
  match s with
  | "" => ""
  | String c s' =>
      match rstrip s' with
      | "" => if is_space c then "" else String c ""
      | r => String c r
      end
  end.

Definition strip (s : string) : string := lstrip (rstrip s).

(** [s.rsplit(sep, 1)] for a one-character [sep] that occurs in [s]:
    the text before the last [sep] and the text after it; [None] when
    [sep] does not occur. *)
Fixpoint rsplit1 (sep : ascii) (s : string) : option (string * string) :=
  match s with
  | "" => None
  | String c s' =>
      match rsplit1 sep s' with
      | Some (a, b) => Some (String c a, b)
      | None => if Ascii.eqb c sep then Some ("", s') else None
      end
  end.

(** Truth value of a string: empty is false. *)
Definition truthy (s : string) : bool :=
  match s with "" => false | _ => true end.

End PyStr.

(** [x or y] where [x] is [None] or a string. *)
Definition py_or (x : option string) (y : result string) : result string :=
  match x with
  | Some s => if PyStr.truthy s then Ok s else y
  | None => y
  end.

(** ** Functions for constructing specifications *)

Definition remove_leading (needle haystack : string) : string :=
  if String.eqb (PyStr.slice None (Some (PyStr.len needle)) haystack) needle
  then PyStr.slice (Some (PyStr.len needle)) None haystack
  else haystack.

Definition remove_trailing (needle haystack : string) : string :=
  if String.eqb (PyStr.slice (Some (- PyStr.len needle)%Z) None haystack) needle
  then PyStr.slice None (Some (- PyStr.len needle)%Z) haystack
  else haystack.

Definition remove_leading_and_trailing (needle haystack : string) : string :=
  remove_leading needle (remove_trailing needle haystack).

(** [re.sub(r'([A-Z])', repl, s)]: the pattern matches exactly the single
    characters 'A'..'Z', so every such character is replaced by [repl]
    applied to it (its group 1) and every other character is kept. *)
Fixpoint re_sub_upper (repl : string -> string) (s : string) : string :=
  match s with
  | "" => ""
  | String c s' =>
      if PyStr.is_upper c
      then repl (String c "") ++ re_sub_upper repl s'
      else String c (re_sub_upper repl s')
  end.

Definition wordize (group1 : string) : string := " " ++ PyStr.lower group1.

Definition camel2word (s : string) : result string :=
  result_bind (PyStr.getitem s 0) (fun first =>
  Ok (first ++ re_sub_upper wordize (PyStr.slice (Some 1%Z) None s))).

Definition contractions : list (string * string) :=
  [("dont", "don't"); ("doesnt", "doesn't"); ("wont", "won't"); ("wasnt", "wasn't")].

Definition complete_english (s : string) : string :=
  fold_left (fun acc xy => PyStr.replace (fst xy) (snd xy) acc) contractions s.

Definition underscore2word (s : string) : string :=
  PyStr.replace "_" " " s.

Definition underscored2spec (name : string) : string :=
  complete_english
    (underscore2word (remove_trailing "_test" (remove_leading "test_" name))).

Definition camelcase2spec (name : string) : result string :=
  camel2word (remove_leading_and_trailing "Test" name).

(** ** The Python objects the plugin looks at *)

(** The classes that occur as keys of a dispatch table or in an
    [isinstance] test. *)
Inductive pyclass : Type :=
| nose_case_MethodTestCase
| nose_case_FunctionTestCase
| doctest_DocTestCase
| unittest_TestCase
| types_ModuleType
| types_FunctionType
| types_ClassType
| builtin_type
| nose_DeprecatedTest
| nose_SkipTest.

(** A module or a class: its identity, its [__name__] and what
    [inspect.getdoc] returns for it. *)
Record named_object : Type := {
  obj_id : nat;
  __name__ : string;
  getdoc : option string
}.

(** A Python object the module does not look into (an argument of a
    generated test, what a test function carries as its description),
    known through what the module does with it: its truth value, [str] of
    it, and what ["%s" % v] formats it as, which is [str] of it unless it
    is a tuple, whose items are then the arguments of the format.  Each
    may raise: [str] of a unicode object with a non-ASCII character, an
    object whose [__str__] or [__nonzero__] fails, a tuple that does not
    hold exactly one item. *)
Record pyvalue : Type := {
  py_bool : result bool;
  py_str : result string;
  py_format : result string
}.

(** A string as such an object. *)
Definition str_value (s : string) : pyvalue :=
  {| py_bool := Ok (PyStr.truthy s); py_str := Ok s; py_format := Ok s |}.

(** What the [description] attribute of a test function holds: a string,
    as nose documents it, [None], or an object of another type that is
    not a generator. *)
Inductive pyattr : Type :=
| AttrStr (s : string)
| AttrNone
| AttrObject (v : pyvalue).

(** A function or method: [func_name], the raw [func_doc], the result of
    [inspect.getdoc], and the [description] attribute when it has one. *)
Record pyfunction : Type := {
  func_id : nat;
  func_name : string;
  func_doc : option string;
  func_getdoc : option string;
  description : option pyattr
}.

Record Example : Type := {
  source : string;
  want : string;
  exc_msg : option string
}.

Record DocTest : Type := {
  name : string;
  examples : list Example
}.

(** What a [unittest.TestCase] instance is beyond the base class. *)
Inductive case_kind : Type :=
| MethodTestCase (method : pyfunction)
| FunctionTestCase (test : pyfunction) (descriptor : option pyfunction)
                   (arg : list pyvalue)
| DocTestCase (_dt_test : DocTest)
| PlainTestCase.

Inductive exception_class : Type :=
| DeprecatedTest
| SkipTest
| OtherException (class_name : string).

Inductive pyobject : Type :=
| PyNone
| PyModule (o : named_object)
| PyFunction (f : pyfunction)
| PyClassObj (o : named_object)            (* old-style class *)
| PyNewClass (o : named_object)            (* new-style class *)
| PyTestCase (_testMethodName : string) (_testMethodDoc : option string)
             (kind : case_kind)
| PyException (cls : exception_class)
| PyOther (class_name : string).

#[global] Instance named_object_eq_dec : EqDecision named_object.
Proof. solve_decision. Defined.
#[global] Instance pyvalue_eq_dec : EqDecision pyvalue.
Proof. solve_decision. Defined.
#[global] Instance pyattr_eq_dec : EqDecision pyattr.
Proof. solve_decision. Defined.
#[global] Instance pyfunction_eq_dec : EqDecision pyfunction.
Proof. solve_decision. Defined.
#[global] Instance Example_eq_dec : EqDecision Example.
Proof. solve_decision. Defined.
#[global] Instance DocTest_eq_dec : EqDecision DocTest.
Proof. solve_decision. Defined.
#[global] Instance case_kind_eq_dec : EqDecision case_kind.
Proof. solve_decision. Defined.
#[global] Instance exception_class_eq_dec : EqDecision exception_class.
Proof. solve_decision. Defined.
#[global] Instance pyobject_eq_dec : EqDecision pyobject.
Proof. solve_decision. Defined.

(** [isinstance(x, cls)], following the class hierarchy: the nose test
    cases and [doctest.DocTestCase] derive from [unittest.TestCase]. *)
Definition isinstance (x : pyobject) (cls : pyclass) : bool :=
  match x, cls with
  | PyModule _, types_ModuleType => true
  | PyFunction _, types_FunctionType => true
  | PyClassObj _, types_ClassType => true
  | PyNewClass _, builtin_type => true
  | PyTestCase _ _ _, unittest_TestCase => true
  | PyTestCase _ _ (MethodTestCase _), nose_case_MethodTestCase => true
  | PyTestCase _ _ (FunctionTestCase _ _ _), nose_case_FunctionTestCase => true
  | PyTestCase _ _ (DocTestCase _), doctest_DocTestCase => true
  | PyException DeprecatedTest, nose_DeprecatedTest => true
  | PyException SkipTest, nose_SkipTest => true
  | _, _ => false
  end.

(** The wrapper nose hands to the plugin: [test.test] and [test.context]. *)
Record Test : Type := {
  test : pyobject;
  context : pyobject
}.

(** ** Dispatch on type *)

(** A key of a dispatch table: the literal [True] or a class. *)
Inductive dispatch_key : Type :=
| KeyTrue
| KeyType (cls : pyclass).

Definition key_selects (key : dispatch_key) (instance : pyobject) : bool :=
  match key with
  | KeyTrue => true
  | KeyType cls => isinstance instance cls
  end.

(** [None] is Python's [None], returned when the loop ends without a
    match. *)
Fixpoint dispatch_on_type {R : Type}
    (dispatch_table : list (dispatch_key * (pyobject -> R)))
    (instance : pyobject) : option R :=
  match dispatch_table with
  | [] => None
  | (type, func) :: rest =>
      if key_selects type instance
      then Some (func instance)
      else dispatch_on_type rest instance
  end.

(** ** Descriptions of contexts and tests *)

(** [object.__name__] *)
Definition attr__name__ (object : pyobject) : result string :=
  match object with
  | PyModule o | PyClassObj o | PyNewClass o => Ok (__name__ o)
  | PyFunction f => Ok (func_name f)
  | _ => Raise (AttributeError "__name__")
  end.

(** [inspect.getdoc(object)].  The dispatch tables pass only modules,
    functions and classes here; the documentation of an object of another
    shape is not modelled and is taken to be absent. *)
Definition inspect_getdoc (object : pyobject) : option string :=
  match object with
  | PyModule o | PyClassObj o | PyNewClass o => getdoc o
  | PyFunction f => func_getdoc f
  | _ => None
  end.

Definition camelcaseDescription (object : pyobject) : result string :=
  py_or (inspect_getdoc object)
        (result_bind (attr__name__ object) camelcase2spec).

Definition underscoredDescription (object : pyobject) : result string :=
  py_or (inspect_getdoc object)
        (result_map (fun n => PyStr.capitalize (underscored2spec n))
                    (attr__name__ object)).

Definition doctestContextDescription (doctest : pyobject) : result string :=
  match doctest with
  | PyTestCase _ _ (DocTestCase dt) => Ok (name dt)
  | _ => Raise (AttributeError "_dt_test")
  end.

(** What a test description is: a string, the specifications a generator
    yields, or what was found in a [description] attribute, [None] or an
    object of another type. *)
Inductive spec_value : Type :=
| SpecStr (s : string)
| SpecGen (items : list string)
| SpecNone
| SpecObject (v : pyvalue).

Definition noseMethodDescription (test : pyobject) : result spec_value :=
  match test with
  | PyTestCase _ _ (MethodTestCase m) =>
      result_map SpecStr
        (py_or (func_getdoc m) (Ok (underscored2spec (func_name m))))
  | _ => Raise (AttributeError "method")
  end.

Definition unittestMethodDescription (test : pyobject) : result spec_value :=
  match test with
  | PyTestCase _testMethodName _testMethodDoc _ =>
      result_map SpecStr
        (py_or _testMethodDoc (Ok (underscored2spec _testMethodName)))
  | _ => Raise (AttributeError "_testMethodDoc")
  end.

Definition noseFunctionDescription (test : pyobject) : result spec_value :=
  match test with
  | PyTestCase _ _ (FunctionTestCase f descriptor arg) =>
      match descriptor with
      | Some _ =>
          (* Special case for test generators. *)
          match description f with
          | Some (AttrStr d) => Ok (SpecStr d)
          | Some AttrNone => Ok SpecNone
          | Some (AttrObject v) => Ok (SpecObject v)
          | None =>
              result_map
                (fun strs => SpecStr ("holds for " ++ PyStr.join ", " strs))
                (result_all (map py_str arg))
          end
      | None =>
          result_map SpecStr
            (py_or (func_doc f) (Ok (underscored2spec (func_name f))))
      end
  | _ => Raise (AttributeError "descriptor")
  end.

Definition dquote : string := String "034"%char "".
Definition newline : string := String PyStr.LF "".

Definition truthy_opt (x : option string) : bool :=
  match x with
  | Some s => PyStr.truthy s
  | None => false
  end.

(** One turn of the loop of [doctestExamplesDescription]: the
    specification the example yields, if it yields one. *)
Definition example_spec (ex : Example) : option string :=
  let source0 := PyStr.replace newline " " (source ex) in
  let '(source1, want1) :=
    if PyStr.contains_char "#" source0 then
      match PyStr.rsplit1 "#" source0 with
      | Some (before, after) => (before, Some after)
      | None => (source0, None)
      end
    else if truthy_opt (exc_msg ex) then
      (source0,
       Some ("throws " ++ dquote
               ++ PyStr.rstrip (default "" (exc_msg ex)) ++ dquote))
    else if PyStr.truthy (want ex) then
      (source0, Some ("returns " ++ PyStr.replace newline " " (want ex)))
    else (source0, None) in
  match want1 with
  | Some w =>
      if PyStr.truthy w
      then Some (PyStr.strip source1 ++ " " ++ PyStr.strip w)
      else None
  | None => None
  end.

(** Different than the other description functions, this one returns a
    generator of specifications. *)
Definition doctestExamplesDescription (test : pyobject) : result spec_value :=
  match test with
  | PyTestCase _ _ (DocTestCase dt) =>
      Ok (SpecGen (omap example_spec (examples dt)))
  | _ => Raise (AttributeError "_dt_test")
  end.

Definition supported_test_types
  : list (dispatch_key * (pyobject -> result spec_value)) :=
  [ (KeyType nose_case_MethodTestCase, noseMethodDescription);
    (KeyType nose_case_FunctionTestCase, noseFunctionDescription);
    (KeyType doctest_DocTestCase, doctestExamplesDescription);
    (KeyType unittest_TestCase, unittestMethodDescription) ].

Definition testDescription (t : Test) : option (result spec_value) :=
  dispatch_on_type supported_test_types (test t).

Definition supported_context_types
  : list (dispatch_key * (pyobject -> result string)) :=
  [ (KeyType types_ModuleType, underscoredDescription);
    (KeyType types_FunctionType, underscoredDescription);
    (KeyType doctest_DocTestCase, doctestContextDescription);
    (* Handle both old and new style classes. *)
    (KeyType types_ClassType, camelcaseDescription);
    (KeyType builtin_type, camelcaseDescription) ].

Definition contextDescription (ctx : pyobject) : option (result string) :=
  dispatch_on_type supported_context_types ctx.

(** [test.test.descriptor] where [test.test] is a nose function test
    case. *)
Definition descriptor_of (x : pyobject) : option pyfunction :=
  match x with
  | PyTestCase _ _ (FunctionTestCase _ d _) => d
  | _ => None
  end.

Definition testContext (t : Test) : pyobject :=
  match isinstance (test t) nose_case_FunctionTestCase, descriptor_of (test t) with
  | true, Some d => PyFunction d      (* test generators set their own contexts *)
  | _, _ =>
      if isinstance (test t) doctest_DocTestCase
      then test t                     (* so do doctests *)
      else context t
  end.

(** ** State and exceptions

    A method that mutates [self] and may raise is a function from the state
    before the call to the outcome and the state after it; what was mutated
    before an exception stays mutated. *)

Definition M (S A : Type) : Type := S -> result A * S.

Definition ret {S A} (a : A) : M S A := fun s => (Ok a, s).

Definition bind {S A B} (m : M S A) (k : A -> M S B) : M S B :=
  fun s =>
    match m s with
    | (Ok a, s') => k a s'
    | (Raise e, s') => (Raise e, s')
    end.

Definition modify {S} (f : S -> S) : M S unit := fun s => (Ok tt, f s).

Definition gets {S A} (f : S -> A) : M S A := fun s => (Ok (f s), s).

Definition lift_result {S A} (r : result A) : M S A := fun s => (r, s).

Declare Scope py_scope.
Delimit Scope py_scope with py.
Notation "'let*' x ':=' c 'in' k" := (bind c (fun x => k))
  (at level 10, x name, c at level 100, k at level 200) : py_scope.
Notation "c '>>' k" := (bind c (fun _ => k))
  (at level 65, right associativity) : py_scope.

(** [for x in items: body(x)] *)
Fixpoint for_each {S A} (items : list A) (body : A -> M S unit) : M S unit :=
  match items with
  | [] => ret tt
  | x :: rest => (body x >> for_each rest body)%py
  end.

(** ** Output stream that can be easily enabled and disabled *)

(** Python 2 [StringIO.StringIO]: the buffer and the file position. *)
Module StringIO.

Record t : Type := { buf : string; pos : nat }.

Definition empty : t := {| buf := ""; pos := 0 |}.

Definition NUL : ascii := "000"%char.

Fixpoint zeros (n : nat) : string :=
  match n with
  | O => ""
  | S n' => String NUL (zeros n')
  end.

Definition write (text : string) (f : t) : t :=
  let n := String.length (buf f) in
  let newpos := (pos f + String.length text)%nat in
  if (pos f =? n)%nat then {| buf := buf f ++ text; pos := newpos |}
  else if (n <? pos f)%nat then
    {| buf := buf f ++ zeros (pos f - n) ++ text; pos := newpos |}
  else
    {| buf := PyStr.str_take (pos f) (buf f) ++ text
                ++ PyStr.str_drop newpos (buf f);
       pos := newpos |}.

(** [truncate()] cuts at the current position. *)
Definition truncate (f : t) : t :=
  {| buf := PyStr.str_take (pos f) (buf f); pos := pos f |}.

Definition seek (p : nat) (f : t) : t := {| buf := buf f; pos := p |}.

(** [read()] returns what follows the position and moves to the end. *)
Definition read (f : t) : string * t :=
  (PyStr.str_drop (pos f) (buf f),
   {| buf := buf f; pos := Nat.max (pos f) (String.length (buf f)) |}).

End StringIO.

(** Which of its three streams an [OutputStream] currently writes to:
    [self.stream] is one of [on_stream], [off_stream], [capture_stream]. *)
Inductive selected : Type :=
| OnStream
| OffStream
| CaptureStream.

#[global] Instance selected_eq_dec : EqDecision selected.
Proof. solve_decision. Defined.

Module OutputStream.

(** The host's stream and the discarding stream are known by the texts
    written to them, oldest first. *)
Record t : Type := {
  capture_stream : StringIO.t;
  on_stream : list string;
  off_stream : list string;
  stream : selected
}.

Definition init (on_stream off_stream : list string) : t :=
  {| capture_stream := StringIO.empty;
     on_stream := on_stream;
     off_stream := off_stream;
     stream := OnStream |}.

Definition set_stream (sel : selected) (s : t) : t :=
  {| capture_stream := capture_stream s;
     on_stream := on_stream s;
     off_stream := off_stream s;
     stream := sel |}.

Definition on (s : t) : t := set_stream OnStream s.

Definition off (s : t) : t := set_stream OffStream s.

Definition capture (s : t) : t :=
  set_stream CaptureStream
    {| capture_stream := StringIO.truncate (capture_stream s);
       on_stream := on_stream s;
       off_stream := off_stream s;
       stream := stream s |}.

Definition get_captured (s : t) : string * t :=
  let '(text, f) := StringIO.read (StringIO.seek 0 (capture_stream s)) in
  (text,
   {| capture_stream := f;
      on_stream := on_stream s;
      off_stream := off_stream s;
      stream := stream s |}).

(** [write] is forwarded to the selected stream. *)
Definition write (text : string) (s : t) : t :=
  match stream s with
  | OnStream =>
      {| capture_stream := capture_stream s;
         on_stream := on_stream s ++ [text];
         off_stream := off_stream s;
         stream := stream s |}
  | OffStream =>
      {| capture_stream := capture_stream s;
         on_stream := on_stream s;
         off_stream := off_stream s ++ [text];
         stream := stream s |}
  | CaptureStream =>
      {| capture_stream := StringIO.write text (capture_stream s);
         on_stream := on_stream s;
         off_stream := off_stream s;
         stream := stream s |}
  end.

(** [writeln(arg)] of [_WritelnDecorator]. *)
Definition writeln (arg : string) (s : t) : t :=
  write newline (if PyStr.truthy arg then write arg s else s).

End OutputStream.

(** ** Color helpers *)

Definition ESC : string := String "027"%char "".

Definition color_end : string := ESC ++ "[1;0m".

Definition colors : gmap string string :=
  {[ "green" := ESC ++ "[1;32m";
     "red" := ESC ++ "[1;31m";
     "yellow" := ESC ++ "[1;33m" ]}.

(** [colors[color]] *)
Definition colors_getitem (color : string) : result string :=
  match colors !! color with
  | Some code => Ok code
  | None => Raise (KeyError color)
  end.

(** The generator expression of [in_color], joined: the color is looked up
    once per line, so no line means no lookup. *)
Fixpoint in_color_lines (color : string) (lines : list string) : result string :=
  match lines with
  | [] => Ok ""
  | line :: rest =>
      result_bind (colors_getitem color) (fun code =>
      result_map (fun tail => code ++ line ++ color_end ++ tail)
                 (in_color_lines color rest))
  end.

Definition in_color (color text : string) : result string :=
  in_color_lines color (PyStr.splitlines_keepends text).

(** ** The output stream of the plugin *)

(** ["%s" % x] where [x] is [None] or a string. *)
Definition format_s (x : option string) : string :=
  match x with
  | Some s => s
  | None => "None"
  end.

(** The value of an expression that is [None], a string, or raises. *)
Definition commute {A} (x : option (result A)) : result (option A) :=
  match x with
  | None => Ok None
  | Some (Ok a) => Ok (Some a)
  | Some (Raise e) => Raise e
  end.

Module SpecOutputStream.

Definition print_text (text : string) (s : OutputStream.t) : OutputStream.t :=
  OutputStream.off (OutputStream.write text (OutputStream.on s)).

Definition print_line (line : string) (s : OutputStream.t) : OutputStream.t :=
  print_text (line ++ newline) s.

Definition print_context (ctx : pyobject) : M OutputStream.t unit :=
  (let* d := lift_result (commute (contextDescription ctx)) in
   modify (print_line (newline ++ format_s d)))%py.

(** ["- %s (%s)" % (spec, status)] formats [str(spec)]; ["- %s" % spec]
    takes [spec] itself as the arguments. *)
Definition _print_spec (colorized : string -> result string)
    (spec : pyvalue) (status : option string) : M OutputStream.t unit :=
  (if truthy_opt status
   then
     let* text := lift_result
                    (result_map
                       (fun s => "- " ++ s ++ " (" ++ format_s status ++ ")")
                       (py_str spec)) in
     let* line := lift_result (colorized text) in
     modify (print_line line)
   else
     let* text := lift_result
                    (result_map (fun s => "- " ++ s) (py_format spec)) in
     let* line := lift_result (colorized text) in
     modify (print_line line))%py.

Definition print_spec (colorized : string -> result string)
    (t : Test) (status : option string) : M OutputStream.t unit :=
  (let* spec := lift_result (commute (testDescription t)) in
   match spec with
   | Some (SpecGen items) =>
       for_each items (fun s => _print_spec colorized (str_value s) status)
   | Some (SpecStr s) =>
       if PyStr.truthy s
       then _print_spec colorized (str_value s) status
       else ret tt
   | Some (SpecObject v) =>
       let* b := lift_result (py_bool v) in
       if b : bool then _print_spec colorized v status else ret tt
   | Some SpecNone | None => ret tt
   end)%py.

End SpecOutputStream.

(** ** Plugin itself *)

(** The value of a command-line flag: [None], [True] (the flag was given),
    or the string found in the environment. *)
Inductive optval : Type :=
| OptNone
| OptTrue
| OptStr (s : string).

Definition opt_truthy (v : optval) : bool :=
  match v with
  | OptNone => false
  | OptTrue => true
  | OptStr s => PyStr.truthy s
  end.

Record Options : Type := {
  enable_plugin_spec : optval;
  verbosity : Z;
  spec_color : optval;
  opt_spec_doctests : optval
}.

(** The two functions [configure] can store in [self._colorize]. *)
Inductive colorizer : Type :=
| colorize_in_color      (* lambda color: lambda text: in_color(color, text) *)
| colorize_plain.        (* lambda color: lambda text: text *)

Definition call_colorize (c : colorizer) (color text : string) : result string :=
  match c with
  | colorize_in_color => in_color color text
  | colorize_plain => Ok text
  end.

Record Spec : Type := {
  _colorize : colorizer;
  spec_doctests : optval;
  current_context : pyobject;
  stream : OutputStream.t
}.

Definition set_current_context (ctx : pyobject) (p : Spec) : Spec :=
  {| _colorize := _colorize p;
     spec_doctests := spec_doctests p;
     current_context := ctx;
     stream := stream p |}.

Definition set_stream (s : OutputStream.t) (p : Spec) : Spec :=
  {| _colorize := _colorize p;
     spec_doctests := spec_doctests p;
     current_context := current_context p;
     stream := s |}.

(** Run a method of [self.stream]. *)
Definition on_stream_do {A} (m : M OutputStream.t A) : M Spec A :=
  fun p => let '(r, s) := m (stream p) in (r, set_stream s p).

(** [configure] also raises [options.verbosity]; the part done by nose's
    [Plugin.configure] is outside this module. *)
Definition configure (options : Options) (p : Spec) : Spec * Options :=
  let options' :=
    if opt_truthy (enable_plugin_spec options)
    then {| enable_plugin_spec := enable_plugin_spec options;
            verbosity := Z.max (verbosity options) 2;
            spec_color := spec_color options;
            opt_spec_doctests := opt_spec_doctests options |}
    else options in
  ({| _colorize := if opt_truthy (spec_color options')
                   then colorize_in_color else colorize_plain;
      spec_doctests := opt_spec_doctests options';
      current_context := current_context p;
      stream := stream p |},
   options').

Definition begin : M Spec unit := modify (set_current_context PyNone).

(** The host's stream is given by what was written to it so far; the
    second stream is the freshly opened null device.  The stream handed
    back to the host is [self.stream] itself, the [stream] field. *)
Definition setOutputStream (host_stream : list string) : M Spec unit :=
  modify (set_stream (OutputStream.init host_stream [])).

Definition _print_context (ctx : pyobject) : M Spec unit :=
  fun p =>
    if isinstance ctx doctest_DocTestCase && negb (opt_truthy (spec_doctests p))
    then ret tt p
    else on_stream_do (SpecOutputStream.print_context ctx) p.

Definition _print_spec (color : string) (t : Test) (status : option string)
  : M Spec unit :=
  fun p =>
    if isinstance (test t) doctest_DocTestCase
       && negb (opt_truthy (spec_doctests p))
    then ret tt p
    else on_stream_do
           (SpecOutputStream.print_spec (call_colorize (_colorize p) color)
                                        t status) p.

(** [context != self.current_context] is decided on the modelled objects,
    which carry their identity. *)
Definition beforeTest (t : Test) : M Spec unit :=
  (let ctx := testContext t in
   let* current := gets current_context in
   (if bool_decide (ctx <> current)
    then _print_context ctx >> modify (set_current_context ctx)
    else ret tt) >>
   on_stream_do (modify OutputStream.off))%py.

Definition addSuccess (t : Test) : M Spec unit :=
  _print_spec "green" t None.

(** [err] is the triple of [sys.exc_info()]; only [err[1]], the exception
    value, is looked at. *)
Record exc_info : Type := { exc_value : pyobject }.

Definition addFailure (t : Test) (err : exc_info) : M Spec unit :=
  _print_spec "red" t (Some "FAILED").

Definition supported_error_types (t : Test)
  : list (dispatch_key * (pyobject -> M Spec unit)) :=
  let print_spec_func color message := fun _ : pyobject =>
    _print_spec color t (Some message) in
  [ (KeyType nose_DeprecatedTest, print_spec_func "yellow" "DEPRECATED");
    (KeyType nose_SkipTest, print_spec_func "yellow" "SKIPPED");
    (KeyTrue, print_spec_func "red" "ERROR") ].

Definition addError (t : Test) (err : exc_info) : M Spec unit :=
  match dispatch_on_type (supported_error_types t) (exc_value err) with
  | Some m => m
  | None => ret tt
  end.

Definition afterTest (t : Test) : M Spec unit :=
  on_stream_do (modify OutputStream.capture).

(** [finalize(result)] prints the test run summary the host wrote while
    the capture stream was selected. *)
Definition finalize (result : pyobject) : M Spec unit :=
  on_stream_do
    (modify OutputStream.on >>
     let* captured := (fun s => let '(text, s') := OutputStream.get_captured s in
                                (Ok text, s')) in
     modify (OutputStream.writeln captured))%py.

(** ** The transformations as the specification words them

    Second definitions, written from the prose and not from the code, to
    compare the code with. *)

Module Prose.

(** [Some rest] when [s] is [p] followed by [rest]. *)
Fixpoint after_prefix (p s : string) : option string :=
  match p, s with
  | "", _ => Some s
  | String a p', String b s' =>
      if Ascii.eqb a b then after_prefix p' s' else None
  | String _ _, "" => None
  end.

(** Remove a leading [p] if present. *)
Definition without_prefix (p s : string) : string :=
  default s (after_prefix p s).

Fixpoint reversed (s : string) : string :=
  match s with
  | "" => ""
  | String c s' => reversed s' ++ String c ""
  end.

(** Remove a trailing [p] if present. *)
Definition without_suffix (p s : string) : string :=
  match after_prefix (reversed p) (reversed s) with
  | Some r => reversed r
  | None => s
  end.

(** Replace every underscore with a space. *)
Definition spaces_for_underscores (s : string) : string :=
  PyStr.map_chars (fun c => if Ascii.eqb c "_" then " "%char else c) s.

(** Rewrite the four contractions, in the order they are listed. *)
Definition contracted (s : string) : string :=
  PyStr.replace "wasnt" "wasn't"
    (PyStr.replace "wont" "won't"
       (PyStr.replace "doesnt" "doesn't"
          (PyStr.replace "dont" "don't" s))).

Definition underscored2spec (name : string) : string :=
  contracted
    (spaces_for_underscores
       (without_suffix "_test" (without_prefix "test_" name))).

(** Every uppercase ASCII letter becomes a space followed by its
    lowercase form (32 code points up); other characters stay. *)
Fixpoint spaced_lowercase (s : string) : string :=
  match s with
  | "" => ""
  | String c s' =>
      if PyStr.is_upper c
      then String " " (String (ascii_of_N (N_of_ascii c + 32))
                              (spaced_lowercase s'))
      else String c (spaced_lowercase s')
  end.

(** Each line of the text between the color code and the reset code. *)
Fixpoint wrapped (code reset : string) (lines : list string) : string :=
  match lines with
  | [] => ""
  | line :: rest => code ++ line ++ reset ++ wrapped code reset rest
  end.

End Prose.


(** An entry of a dispatch table that the loop passes over. *)
Definition passes_over {R : Type} (instance : pyobject)
    (entry : dispatch_key * (pyobject -> R)) : Prop :=
  key_selects (fst entry) instance = false.

(** The text [_print_spec] hands to the colorizer for a specification
    that is a string. *)
Definition spec_text (spec : string) (status : option string) : string :=
  if truthy_opt status
  then "- " ++ spec ++ " (" ++ format_s status ++ ")"
  else "- " ++ spec.

(** The same for an object of another type, whose formatting may raise. *)
Definition object_text (v : pyvalue) (status : option string)
  : result string :=
  if truthy_opt status
  then result_map (fun s => "- " ++ s ++ " (" ++ format_s status ++ ")")
                  (py_str v)
  else result_map (fun s => "- " ++ s) (py_format v).

(** The texts [print_spec] hands to the colorizer for a test description,
    one per specification line: one per specification a generator yields,
    one for a string that is not empty or an object that is true, none for
    [None]; or what the truth value or the formatting of the object
    raises. *)
Definition spec_texts (spec : option spec_value) (status : option string)
  : result (list string) :=
  match spec with
  | Some (SpecGen items) => Ok (map (fun s => spec_text s status) items)
  | Some (SpecStr s) =>
      Ok (if PyStr.truthy s then [spec_text s status] else [])
  | Some (SpecObject v) =>
      result_bind (py_bool v) (fun b =>
        if b : bool
        then result_map (fun text => [text]) (object_text v status)
        else Ok [])
  | Some SpecNone | None => Ok []
  end.

(** What an outcome hook computes before it prints: the description of
    the test and the texts to print for it. *)
Definition report_texts (t : Test) (status : option string)
  : result (list string) :=
  result_bind (commute (testDescription t))
              (fun spec => spec_texts spec status).

(** What [self._colorize(color)(text)] is when [colors[color]] is [code]. *)
Definition paint (c : colorizer) (code text : string) : string :=
  match c with
  | colorize_in_color =>
      Prose.wrapped code color_end (PyStr.splitlines_keepends text)
  | colorize_plain => text
  end.

(** The guard of [_print_spec] and [_print_context]: a doctest case is
    passed over unless doctest support is on. *)
Definition doctest_hidden (p : Spec) (x : pyobject) : bool :=
  isinstance x doctest_DocTestCase && negb (opt_truthy (spec_doctests p)).

(** [prints lines p p']: from [p] to [p'] the plugin printed [lines], each
    in one write to the host's stream and followed by a newline, and
    changed nothing else, but for the selected stream, which a print
    leaves off. *)
Definition prints (lines : list string) (p p' : Spec) : Prop :=
  _colorize p' = _colorize p
  /\ spec_doctests p' = spec_doctests p
  /\ current_context p' = current_context p
  /\ OutputStream.capture_stream (stream p')
     = OutputStream.capture_stream (stream p)
  /\ OutputStream.off_stream (stream p') = OutputStream.off_stream (stream p)
  /\ OutputStream.on_stream (stream p')
     = (OutputStream.on_stream (stream p)
        ++ map (fun l => (l ++ newline)%string) lines)%list
  /\ OutputStream.stream (stream p')
     = match lines with
       | [] => OutputStream.stream (stream p)
       | _ => OffStream
       end.

(** [reports color status m p]: run in [p], the hook [m] returns normally
    and prints, for every specification line of the test, the text of that
    line with the status, passed through the plugin's colorizer for
    [color]; or, when the description or its texts cannot be computed, it
    raises what they raise and changes nothing. *)
Definition reports (t : Test) (color : string) (status : option string)
    (m : M Spec unit) (p : Spec) : Prop :=
  match report_texts t status with
  | Ok texts =>
      exists lines p',
        Forall2 (fun text line =>
                   call_colorize (_colorize p) color text = Ok line)
                texts lines
        /\ m p = (Ok tt, p')
        /\ prints lines p p'
  | Raise e => m p = (Raise e, p)
  end.

(** What can happen between [beforeTest] and [afterTest]: the host writes
    to the stream the plugin gave it, or reports the outcome. *)
Inductive event : Type :=
| HostWrite (text : string)
| Success (t : Test)
| Failure (t : Test) (err : exc_info)
| Error (t : Test) (err : exc_info).

Definition run_event (e : event) : M Spec unit :=
  match e with
  | HostWrite text => on_stream_do (modify (OutputStream.write text))
  | Success t => addSuccess t
  | Failure t err => addFailure t err
  | Error t err => addError t err
  end.

Definition run_events (events : list event) : M Spec unit :=
  for_each events run_event.

(** The texts the host wrote, in order. *)
Definition host_writes (events : list event) : list string :=
  omap (fun e => match e with HostWrite text => Some text | _ => None end)
       events.

(** The selected stream of the plugin's output stream. *)
Definition selected_stream (p : Spec) : selected :=
  OutputStream.stream (stream p).

(** ** Sample objects *)

Module Samples.

(** A plugin configured without colors and without doctest support,
    after [begin] and [setOutputStream]. *)
Definition plugin : Spec :=
  {| _colorize := colorize_plain;
     spec_doctests := OptNone;
     current_context := PyNone;
     stream := OutputStream.init [] [] |}.


Definition TestFoobar : pyobject :=
  PyNewClass {| obj_id := 1; __name__ := "TestFoobar"; getdoc := None |}.

(** [TestFoobar.test_is_a_singleton] *)
Definition singleton_test : Test :=
  {| test := PyTestCase "test_is_a_singleton" None PlainTestCase;
     context := TestFoobar |}.

(** The doctest of [mod.f], with the one example [>>> 2 + 3] that
    wants [5]. *)
Definition doctest_case : pyobject :=
  PyTestCase "runTest" None
    (DocTestCase
       {| name := "mod.f";
          examples := [ {| source := "2 + 3" ++ newline;
                           want := "5" ++ newline;
                           exc_msg := None |} ] |}).

Definition doctest_test : Test :=
  {| test := doctest_case; context := PyNone |}.


Definition skip : exc_info := {| exc_value := PyException SkipTest |}.


End Samples.

(** ** Observations on strings and buffers *)

(** Every character of [s] satisfies [f]. *)
Fixpoint all_chars (f : ascii -> bool) (s : string) : bool :=
  match s with
  | "" => true
  | String c s' => f c && all_chars f s'
  end.

(** [s] with every [c] deleted. *)
Fixpoint erase_char (c : ascii) (s : string) : string :=
  match s with
  | "" => ""
  | String a s' =>
      if Ascii.eqb a c then erase_char c s' else String a (erase_char c s')
  end.

(** The position of the buffer is at its end, as it is after every
    [write] at the end and after every [read()]. *)
Definition at_end (f : StringIO.t) : Prop :=
  StringIO.pos f = String.length (StringIO.buf f).

(** The host writes the texts [ws], one after the other. *)
Definition write_all (ws : list string) (s : OutputStream.t) : OutputStream.t :=
  fold_left (fun s w => OutputStream.write w s) ws s.

(** ** Facts about the string primitives *)

Section PyStrFacts.

Import PyStr.

Lemma app_cons (c : ascii) (s t : string) :
  String c s ++ t = String c (s ++ t).
Proof. reflexivity. Qed.

Lemma app_nil (t : string) : "" ++ t = t.
Proof. reflexivity. Qed.

Lemma str_take_length (s t : string) :
  str_take (String.length s) (s ++ t) = s.
Proof.
  induction s as [|c s IH]; [now destruct t|].
  rewrite app_cons. simpl. now rewrite IH.
Qed.

Lemma str_drop_length (s t : string) :
  str_drop (String.length s) (s ++ t) = t.
Proof. induction s as [|c s IH]; [reflexivity|]. rewrite app_cons. apply IH. Qed.

Lemma str_take_all (s : string) : str_take (String.length s) s = s.
Proof. induction s as [|c s IH]; simpl; [reflexivity | now rewrite IH]. Qed.

Lemma str_take_drop (n : nat) (s : string) :
  str_take n s ++ str_drop n s = s.
Proof.
  revert s; induction n as [|n IH]; intros [|c s]; simpl; auto.
  rewrite app_cons. f_equal. apply IH.
Qed.

Lemma str_drop_size (n : nat) (s : string) :
  String.length (str_drop n s) = (String.length s - n)%nat.
Proof.
  revert s; induction n as [|n IH]; intros [|c s]; simpl; auto.
Qed.

Lemma app_empty_r (s : string) : s ++ "" = s.
Proof.
  induction s as [|c s IH]; [reflexivity|]. rewrite app_cons. now rewrite IH.
Qed.

Lemma app_assoc_str (a b c : string) : (a ++ b) ++ c = a ++ b ++ c.
Proof.
  induction a as [|x a IH]; [reflexivity|]. rewrite !app_cons. now rewrite IH.
Qed.

Lemma app_size (a b : string) :
  String.length (a ++ b) = (String.length a + String.length b)%nat.
Proof.
  induction a as [|x a IH]; [reflexivity|]. rewrite app_cons. simpl. now rewrite IH.
Qed.

Lemma str_take_ge (n : nat) (s : string) :
  (String.length s <= n)%nat -> str_take n s = s.
Proof.
  revert n; induction s as [|c s IH]; intros [|n] L; simpl in *;
    try lia; auto.
  now rewrite IH by lia.
Qed.

Lemma str_drop_ge (n : nat) (s : string) :
  (String.length s <= n)%nat -> str_drop n s = "".
Proof.
  revert n; induction s as [|c s IH]; intros [|n] L; simpl in *;
    try lia; auto.
  apply IH; lia.
Qed.

(** The four slices the plugin takes. *)

Lemma slice_upto (p s : string) :
  slice None (Some (len p)) s = str_take (String.length p) s.
Proof.
  unfold slice, clamp_index, len.
  destruct (Z.ltb_spec (Z.of_nat (String.length p)) 0) as [H|H]; [lia|].
  rewrite Z.sub_0_r. change (Z.to_nat 0) with 0%nat. change (str_drop 0 s) with s.
  destruct (Nat.le_gt_cases (String.length p) (String.length s)) as [L|L].
  - rewrite Z.min_l by lia. now rewrite Nat2Z.id.
  - rewrite Z.min_r by lia. rewrite Nat2Z.id.
    now rewrite !str_take_ge by lia.
Qed.

Lemma slice_from (p s : string) :
  slice (Some (len p)) None s = str_drop (String.length p) s.
Proof.
  unfold slice, clamp_index, len.
  destruct (Z.ltb_spec (Z.of_nat (String.length p)) 0) as [H|H]; [lia|].
  destruct (Nat.le_gt_cases (String.length p) (String.length s)) as [L|L].
  - rewrite Z.min_l by lia. rewrite Nat2Z.id.
    apply str_take_ge. rewrite str_drop_size. lia.
  - rewrite Z.min_r by lia. rewrite Nat2Z.id.
    rewrite !str_drop_ge by lia. now destruct (Z.to_nat _).
Qed.

(** With a negative bound: the last [length p] characters, and what is
    before them.  An empty [p] makes the bound [-0], that is [0]. *)
Lemma slice_last (p s : string) :
  slice (Some (- len p)%Z) None s
  = match p with
    | "" => s
    | _ => str_drop (String.length s - String.length p) s
    end.
Proof.
  unfold slice, clamp_index, len.
  destruct p as [|c p].
  - change (- Z.of_nat (String.length ""))%Z with 0%Z.
    change (0 <? 0)%Z with false. cbv iota.
    rewrite Z.min_l by lia. change (Z.to_nat 0) with 0%nat.
    change (str_drop 0 s) with s. apply str_take_ge. lia.
  - destruct (Z.ltb_spec (- Z.of_nat (String.length (String c p))) 0)
      as [H|H]; [|simpl in H; lia].
    set (n := String.length (String c p)) in *.
    destruct (Nat.le_gt_cases n (String.length s)) as [L|L].
    + rewrite Z.max_r by lia.
      replace (Z.to_nat (- Z.of_nat n + Z.of_nat (String.length s)))
        with (String.length s - n)%nat by lia.
      apply str_take_ge. rewrite str_drop_size. lia.
    + rewrite Z.max_l by lia.
      replace (String.length s - n)%nat with 0%nat by lia.
      change (Z.to_nat 0) with 0%nat. change (str_drop 0 s) with s.
      apply str_take_ge. lia.
Qed.

Lemma slice_but_last (p s : string) :
  slice None (Some (- len p)%Z) s
  = match p with
    | "" => ""
    | _ => str_take (String.length s - String.length p) s
    end.
Proof.
  unfold slice, clamp_index, len.
  rewrite Z.sub_0_r. change (Z.to_nat 0) with 0%nat.
  change (str_drop 0 s) with s.
  destruct p as [|c p].
  - change (- Z.of_nat (String.length ""))%Z with 0%Z.
    change (0 <? 0)%Z with false. cbv iota.
    rewrite Z.min_l by lia. reflexivity.
  - destruct (Z.ltb_spec (- Z.of_nat (String.length (String c p))) 0)
      as [H|H]; [|simpl in H; lia].
    f_equal. lia.
Qed.

End PyStrFacts.

(** ** The code against the prose: prefixes and suffixes *)

Section Stripping.

Import PyStr Prose.

Lemma after_prefix_app (p r : string) : after_prefix p (p ++ r) = Some r.
Proof.
  induction p as [|c p IH]; [reflexivity|].
  rewrite app_cons. simpl. now rewrite Ascii.eqb_refl.
Qed.

Lemma after_prefix_Some (p s r : string) :
  after_prefix p s = Some r -> s = p ++ r.
Proof.
  revert s; induction p as [|c p IH]; intros [|d s] H; simpl in H;
    try discriminate; try (injection H as <-; reflexivity).
  destruct (Ascii.eqb_spec c d) as [->|]; [|discriminate].
  rewrite app_cons. f_equal. now apply IH.
Qed.

Lemma without_prefix_app (p r : string) : without_prefix p (p ++ r) = r.
Proof. unfold without_prefix. now rewrite after_prefix_app. Qed.

Lemma without_prefix_absent (p s : string) :
  (forall r, s <> p ++ r) -> without_prefix p s = s.
Proof.
  intros H. unfold without_prefix.
  destruct (after_prefix p s) as [r|] eqn:E; [|reflexivity].
  apply after_prefix_Some in E. now destruct (H r).
Qed.

Lemma reversed_app (a b : string) :
  reversed (a ++ b) = reversed b ++ reversed a.
Proof.
  induction a as [|c a IH]; [now rewrite app_nil, app_empty_r|].
  rewrite app_cons. simpl. now rewrite IH, app_assoc_str.
Qed.

Lemma reversed_involutive (s : string) : reversed (reversed s) = s.
Proof.
  induction s as [|c s IH]; [reflexivity|].
  simpl. rewrite reversed_app, IH. reflexivity.
Qed.

Lemma without_suffix_app (p r : string) : without_suffix p (r ++ p) = r.
Proof.
  unfold without_suffix.
  now rewrite reversed_app, after_prefix_app, reversed_involutive.
Qed.

Lemma without_suffix_absent (p s : string) :
  (forall r, s <> r ++ p) -> without_suffix p s = s.
Proof.
  intros H. unfold without_suffix.
  destruct (after_prefix (reversed p) (reversed s)) as [u|] eqn:E;
    [|reflexivity].
  apply after_prefix_Some in E.
  destruct (H (reversed u)).
  rewrite <- (reversed_involutive s), E, reversed_app.
  now rewrite reversed_involutive.
Qed.

Lemma without_prefix_empty (p s : string) :
  without_prefix p s = "" -> s = "" \/ s = p.
Proof.
  unfold without_prefix.
  destruct (after_prefix p s) as [u|] eqn:E; simpl; intros ->; [|now left].
  apply after_prefix_Some in E. right. now rewrite E, app_empty_r.
Qed.

Lemma without_suffix_inv (p s : string) :
  s = without_suffix p s \/ s = without_suffix p s ++ p.
Proof.
  unfold without_suffix.
  destruct (after_prefix (reversed p) (reversed s)) as [u|] eqn:E;
    [|now left].
  apply after_prefix_Some in E. right.
  rewrite <- (reversed_involutive s) at 1.
  now rewrite E, reversed_app, reversed_involutive.
Qed.

(** [remove_leading] removes a leading needle if there is one. *)
Lemma remove_leading_prose (needle haystack : string) :
  remove_leading needle haystack = without_prefix needle haystack.
Proof.
  unfold remove_leading. rewrite slice_upto, slice_from.
  destruct (String.eqb_spec (str_take (String.length needle) haystack) needle)
    as [E|E].
  - rewrite <- (str_take_drop (String.length needle) haystack) at 2.
    rewrite E. now rewrite without_prefix_app.
  - symmetry. apply without_prefix_absent. intros r ->.
    now rewrite str_take_length in E.
Qed.

(** [remove_trailing] removes a trailing needle if there is one. *)
Lemma remove_trailing_prose (needle haystack : string) :
  remove_trailing needle haystack = without_suffix needle haystack.
Proof.
  unfold remove_trailing. rewrite slice_last, slice_but_last.
  destruct needle as [|c p].
  - destruct (String.eqb_spec haystack "") as [->|E]; [reflexivity|].
    rewrite <- (app_empty_r haystack) at 2.
    now rewrite without_suffix_app.
  - set (needle := String c p).
    set (n := (String.length haystack - String.length needle)%nat).
    destruct (String.eqb_spec (str_drop n haystack) needle) as [E|E].
    + rewrite <- (str_take_drop n haystack) at 2.
      rewrite E. now rewrite without_suffix_app.
    + symmetry. apply without_suffix_absent. intros r ->. apply E.
      subst n. rewrite app_size.
      replace (String.length r + String.length needle
               - String.length needle)%nat
        with (String.length r) by lia.
      apply str_drop_length.
Qed.

End Stripping.

(** ** Facts about [str.replace] *)

Section Replace.

Import PyStr.

Lemma starts_with_app (p s : string) : starts_with p (p ++ s) = true.
Proof.
  induction p as [|c p IH]; [reflexivity|].
  rewrite app_cons. simpl. now rewrite Ascii.eqb_refl.
Qed.

Lemma starts_with_split (p s : string) :
  starts_with p s = true -> s = p ++ str_drop (String.length p) s.
Proof.
  revert s; induction p as [|c p IH]; intros [|d s] H; simpl in H;
    try discriminate; try reflexivity.
  destruct (Ascii.eqb_spec c d) as [->|]; [|discriminate].
  rewrite app_cons. simpl. f_equal. now apply IH.
Qed.

Lemma starts_with_longer (p s t : string) :
  starts_with p s = true -> starts_with p (s ++ t) = true.
Proof.
  intros H. rewrite (starts_with_split p s H), app_assoc_str.
  apply starts_with_app.
Qed.

(** A match that begins before a character foreign to [p] ends before
    it. *)
Lemma starts_with_before (p a rest : string) (c : ascii) :
  contains_char c p = false ->
  starts_with p (a ++ String c rest) = true ->
  starts_with p a = true.
Proof.
  revert a; induction p as [|y p IH]; intros a Hc H; [reflexivity|].
  simpl in Hc. destruct (Ascii.eqb_spec y c) as [->|Hy]; [discriminate|].
  destruct a as [|z a].
  - rewrite app_nil in H. simpl in H.
    destruct (Ascii.eqb_spec y c); [contradiction | discriminate].
  - rewrite app_cons in H. simpl in H |- *.
    destruct (Ascii.eqb y z); [|discriminate]. now apply IH.
Qed.

Lemma replace_from_skip (old new x s : string) :
  replace_from old new (String.length x) (x ++ s) = replace_from old new 0 s.
Proof.
  induction x as [|c x IH]; [reflexivity|]. rewrite app_cons. apply IH.
Qed.

Lemma replace_from_hit (c : ascii) (p new s : string) :
  replace_from (String c p) new 0 (String c p ++ s)
  = new ++ replace_from (String c p) new 0 s.
Proof.
  pose proof (starts_with_app (String c p) s) as H.
  rewrite app_cons in H |- *. cbn [replace_from]. rewrite H.
  f_equal. change (String.length (String c p) - 1)%nat
    with (String.length p - 0)%nat.
  rewrite Nat.sub_0_r. apply replace_from_skip.
Qed.

Variables old new : string.
Hypothesis old_not_empty : old <> "".

Lemma replace_nothing : replace old new "" = "".
Proof. now destruct old. Qed.

(** At an occurrence of [old] the scan emits [new] and resumes after
    it. *)
Lemma replace_hit (s : string) :
  replace old new (old ++ s) = new ++ replace old new s.
Proof.
  destruct old as [|c p]; [contradiction|]. apply replace_from_hit.
Qed.

(** Elsewhere it copies one character and moves on. *)
Lemma replace_miss (c : ascii) (s : string) :
  starts_with old (String c s) = false ->
  replace old new (String c s) = String c (replace old new s).
Proof.
  intros H. destruct old as [|d p] eqn:E; [contradiction|].
  unfold replace. cbn [replace_from]. now rewrite H.
Qed.

(** A character that [old] does not have after its first position
    separates the scan: no match extends across it. *)
Lemma replace_barrier (c : ascii) (a rest : string) :
  contains_char c (str_drop 1 old) = false ->
  replace old new (a ++ String c rest)
  = replace old new a ++ replace old new (String c rest).
Proof.
  intros Hc.
  remember (String.length a) as n eqn:Hn.
  revert a Hn. induction n as [n IH] using lt_wf_ind. intros a Hn.
  destruct a as [|x a]; [now rewrite replace_nothing|].
  destruct (starts_with old (String x a ++ String c rest)) eqn:Hs.
  - assert (starts_with old (String x a) = true) as Ha.
    { destruct old as [|o p]; [contradiction|].
      rewrite app_cons in Hs. simpl in Hs |- *.
      destruct (Ascii.eqb o x); [|discriminate].
      revert Hs. apply starts_with_before. exact Hc. }
    rewrite (starts_with_split _ _ Ha), app_assoc_str, !replace_hit.
    rewrite app_assoc_str. f_equal.
    eapply IH; [|reflexivity]. subst n.
    rewrite str_drop_size. destruct old; [contradiction|]. simpl. lia.
  - assert (starts_with old (String x a) = false) as Ha.
    { destruct (starts_with old (String x a)) eqn:E; [|reflexivity].
      now rewrite (starts_with_longer _ _ _ E) in Hs. }
    rewrite app_cons in Hs |- *.
    rewrite !replace_miss by assumption.
    rewrite app_cons. f_equal.
    eapply IH; [|reflexivity]. subst n. simpl. lia.
Qed.

(** Hence a word [String c w] that the scan turns into [w'] whatever
    follows is turned into [w'] whatever precedes, too. *)
Lemma replace_around (c : ascii) (w w' : string) :
  contains_char c (str_drop 1 old) = false ->
  (forall b, replace old new (String c w ++ b) = w' ++ replace old new b) ->
  forall a b,
    replace old new (a ++ String c w ++ b)
    = replace old new a ++ w' ++ replace old new b.
Proof.
  intros Hc Hw a b. rewrite app_cons, replace_barrier by assumption.
  now rewrite <- app_cons, Hw.
Qed.

End Replace.

(** ** CamelCase names *)

Section CamelCase.

Import PyStr.

Lemma getitem_first (c : ascii) (rest : string) :
  getitem (String c rest) 0 = Ok (String c "").
Proof.
  unfold getitem, len. change (0 <? 0)%Z with false. cbv iota.
  change (0 <=? 0)%Z with true. simpl String.length.
  destruct (Z.ltb_spec 0 (Z.of_nat (S (String.length rest)))); [|lia].
  reflexivity.
Qed.

Lemma getitem_empty (i : Z) : getitem "" i = Raise IndexError.
Proof.
  unfold getitem, len. simpl String.length. change (Z.of_nat 0) with 0%Z.
  rewrite Z.add_0_r.
  destruct (i <? 0)%Z eqn:E;
    destruct (Z.leb_spec 0 i); destruct (Z.ltb_spec i 0); try reflexivity; lia.
Qed.

Lemma slice_tail (c : ascii) (rest : string) :
  slice (Some 1%Z) None (String c rest) = rest.
Proof. change 1%Z with (len "x"). now rewrite slice_from. Qed.

Lemma re_sub_upper_wordize (s : string) :
  re_sub_upper wordize s = Prose.spaced_lowercase s.
Proof.
  induction s as [|c s IH]; [reflexivity|].
  simpl. destruct (is_upper c) eqn:U; rewrite IH; [|reflexivity].
  unfold wordize, lower. simpl map_chars. unfold lower_char. rewrite U.
  reflexivity.
Qed.

Lemma camel2word_cons (c : ascii) (rest : string) :
  camel2word (String c rest)
  = Ok (String c (Prose.spaced_lowercase rest)).
Proof.
  unfold camel2word. rewrite getitem_first, slice_tail. simpl result_bind.
  now rewrite re_sub_upper_wordize.
Qed.

Lemma camel2word_empty : camel2word "" = Raise IndexError.
Proof. unfold camel2word. now rewrite getitem_empty. Qed.

End CamelCase.

(** C3.  For every nonempty string, [camel2word] keeps the first character
    as it is and turns every uppercase ASCII letter of the rest into a
    space followed by the lowercase letter, leaving the other characters in
    place; 'CamelCase' becomes 'Camel case'. *)
Theorem camel2word_spaces_capitals :
  (forall s : string, s <> "" ->
     exists c rest,
       s = String c rest
       /\ camel2word s = Ok (String c (Prose.spaced_lowercase rest)))
  /\ camel2word "CamelCase" = Ok "Camel case".
Proof.
  split; [|reflexivity].
  intros [|c rest] H; [contradiction|].
  exists c, rest. split; [reflexivity | apply camel2word_cons].
Qed.

Lemma camel2word_spaces_capitals_witness :
  exists c rest,
    "CaseWithSpec" = String c rest
    /\ camel2word "CaseWithSpec" = Ok (String c (Prose.spaced_lowercase rest)).
Proof.
  apply (proj1 camel2word_spaces_capitals "CaseWithSpec"). discriminate.
Defined.

(** C8.  [camel2word] takes [string[0]] unconditionally and raises
    [IndexError] on the empty string; so [camelcase2spec] raises it on
    every name that is empty once a trailing and a leading 'Test' are
    removed, as 'Test' and 'TestTest' are, and so does
    [camelcaseDescription] for a class of such a name without docstring. *)
Theorem camel2word_empty_name_raises :
  camel2word "" = Raise IndexError
  /\ (forall name,
        remove_leading_and_trailing "Test" name = "" ->
        camelcase2spec name = Raise IndexError)
  /\ remove_leading_and_trailing "Test" "Test" = ""
  /\ remove_leading_and_trailing "Test" "TestTest" = ""
  /\ (forall name,
        remove_leading_and_trailing "Test" name = ""
        <-> name = "" \/ name = "Test" \/ name = "TestTest")
  /\ camelcase2spec "Test" = Raise IndexError
  /\ camelcase2spec "TestTest" = Raise IndexError
  /\ (forall o,
        getdoc o = None ->
        remove_leading_and_trailing "Test" (__name__ o) = "" ->
        camelcaseDescription (PyNewClass o) = Raise IndexError
        /\ camelcaseDescription (PyClassObj o) = Raise IndexError).
Proof.
  split; [apply camel2word_empty|].
  split.
  { intros name H. unfold camelcase2spec. rewrite H. apply camel2word_empty. }
  do 2 (split; [reflexivity|]).
  split.
  { intros name. split.
    - unfold remove_leading_and_trailing.
      rewrite remove_leading_prose, remove_trailing_prose. intros H.
      apply without_prefix_empty in H.
      destruct (without_suffix_inv "Test" name) as [E|E];
        destruct H as [H|H]; rewrite H in E; auto.
    - intros [->|[->| ->]]; reflexivity. }
  do 2 (split; [reflexivity|]).
  intros o Hdoc Hname. unfold camelcaseDescription. simpl.
  rewrite Hdoc. simpl. unfold camelcase2spec. rewrite Hname.
  split; apply camel2word_empty.
Qed.

Lemma camel2word_empty_name_raises_witness :
  camelcase2spec "TestTest" = Raise IndexError
  /\ camelcaseDescription
       (PyNewClass {| obj_id := 0; __name__ := "Test"; getdoc := None |})
     = Raise IndexError.
Proof.
  split.
  - apply (proj1 (proj2 camel2word_empty_name_raises) "TestTest"). reflexivity.
  - apply (proj2 (proj2 (proj2 (proj2 (proj2 (proj2 (proj2
             camel2word_empty_name_raises))))))
             {| obj_id := 0; __name__ := "Test"; getdoc := None |});
      reflexivity.
Defined.

(** ** Underscored names *)

Lemma underscore2word_prose (s : string) :
  underscore2word s = Prose.spaces_for_underscores s.
Proof.
  unfold underscore2word, Prose.spaces_for_underscores.
  induction s as [|c s IH]; [reflexivity|].
  destruct (Ascii.eqb_spec c "_"%char) as [->|N].
  - change (String "_" s) with ("_" ++ s).
    rewrite replace_hit by discriminate.
    rewrite IH. simpl PyStr.map_chars. reflexivity.
  - rewrite replace_miss; [|discriminate|].
    + rewrite IH. simpl PyStr.map_chars.
      destruct (Ascii.eqb_spec c "_"%char); [contradiction | reflexivity].
    + cbn [PyStr.starts_with].
      destruct (Ascii.eqb_spec "_"%char c) as [E|]; [|reflexivity].
      now destruct N.
Qed.

Lemma complete_english_prose (s : string) :
  complete_english s = Prose.contracted s.
Proof. reflexivity. Qed.

(** C4.  [underscored2spec] removes a leading 'test_' if present, then a
    trailing '_test' if present, then turns every underscore into a space,
    then rewrites 'dont', 'doesnt', 'wont', 'wasnt', in that order, into
    their contractions, each rewrite replacing its pattern wherever the
    scan from the left meets it and copying every other character; a name
    with neither the prefix nor the suffix is not stripped. *)
Theorem underscored2spec_pipeline :
  (forall name, underscored2spec name = Prose.underscored2spec name)
  /\ (forall name,
        (forall r, name <> "test_" ++ r) ->
        (forall r, name <> r ++ "_test") ->
        remove_trailing "_test" (remove_leading "test_" name) = name)
  /\ Forall (fun xy =>
               (forall s,
                   PyStr.replace (fst xy) (snd xy) (fst xy ++ s)
                   = snd xy ++ PyStr.replace (fst xy) (snd xy) s)
               /\ (forall c s,
                      PyStr.starts_with (fst xy) (String c s) = false ->
                      PyStr.replace (fst xy) (snd xy) (String c s)
                      = String c (PyStr.replace (fst xy) (snd xy) s))
               /\ PyStr.replace (fst xy) (snd xy) "" = "")
            contractions
  /\ underscored2spec "test_doesnt_work_with_sets" = "doesn't work with sets".
Proof.
  split; [|split; [|split; [|reflexivity]]].
  - intros name. unfold underscored2spec, Prose.underscored2spec.
    now rewrite complete_english_prose, underscore2word_prose,
      remove_trailing_prose, remove_leading_prose.
  - intros name Hp Hs.
    rewrite remove_trailing_prose, remove_leading_prose.
    rewrite (without_prefix_absent _ _ Hp).
    now apply without_suffix_absent.
  - unfold contractions.
    repeat (apply List.Forall_cons || apply List.Forall_nil); cbn [fst snd];
      (split; [|split; [|reflexivity]]);
      solve [ intros s; apply replace_hit; discriminate
            | intros c s; apply replace_miss; discriminate ].
Qed.

Lemma underscored2spec_pipeline_witness :
  remove_trailing "_test" (remove_leading "test_" "is_a_singleton")
  = "is_a_singleton".
Proof.
  apply (proj1 (proj2 underscored2spec_pipeline) "is_a_singleton").
  - intros r H. discriminate H.
  - intros r H.
    apply (f_equal Prose.reversed) in H. rewrite reversed_app in H.
    discriminate H.
Defined.

(** ** Contractions inside longer words *)

Ltac around old new c w w' :=
  rewrite (replace_around old new ltac:(discriminate) c w w'
             ltac:(reflexivity) ltac:(intros; reflexivity)).

(** C10.  [complete_english] replaces substrings, not whole words: each of
    the four rewrites fires on an occurrence of its pattern wherever it
    stands, whatever precedes and follows it, so 'wonton', which merely
    contains 'wont', gets an apostrophe in the middle of the word. *)
Theorem complete_english_rewrites_inside_words :
  Forall (fun xy =>
            forall a b,
              complete_english (a ++ fst xy ++ b)
              = complete_english a ++ snd xy ++ complete_english b)
         contractions
  /\ complete_english "wonton" = "won'ton".
Proof.
  split; [|reflexivity].
  unfold contractions.
  constructor; [|constructor; [|constructor; [|constructor; [|constructor]]]];
    intros a b; rewrite !complete_english_prose; unfold Prose.contracted;
    cbn [fst snd].
  - around "dont" "don't" "d"%char "ont" "don't".
    around "doesnt" "doesn't" "d"%char "on't" "don't".
    around "wont" "won't" "d"%char "on't" "don't".
    around "wasnt" "wasn't" "d"%char "on't" "don't". reflexivity.
  - around "dont" "don't" "d"%char "oesnt" "doesnt".
    around "doesnt" "doesn't" "d"%char "oesnt" "doesn't".
    around "wont" "won't" "d"%char "oesn't" "doesn't".
    around "wasnt" "wasn't" "d"%char "oesn't" "doesn't". reflexivity.
  - around "dont" "don't" "w"%char "ont" "wont".
    around "doesnt" "doesn't" "w"%char "ont" "wont".
    around "wont" "won't" "w"%char "ont" "won't".
    around "wasnt" "wasn't" "w"%char "on't" "won't". reflexivity.
  - around "dont" "don't" "w"%char "asnt" "wasnt".
    around "doesnt" "doesn't" "w"%char "asnt" "wasnt".
    around "wont" "won't" "w"%char "asnt" "wasnt".
    around "wasnt" "wasn't" "w"%char "asnt" "wasn't". reflexivity.
Qed.

(** ** Dispatch on type *)

Section Dispatch.

Context {R : Type}.
Implicit Types (table pre post : list (dispatch_key * (pyobject -> R))).

Lemma dispatch_first_match pre post key func instance :
  Forall (passes_over instance) pre ->
  key_selects key instance = true ->
  dispatch_on_type (pre ++ (key, func) :: post) instance
  = Some (func instance).
Proof.
  intros Hpre Hkey. induction Hpre as [|[k f] pre Hk _ IH]; simpl.
  - now rewrite Hkey.
  - unfold passes_over in Hk. simpl in Hk. now rewrite Hk.
Qed.

Lemma dispatch_no_match table instance :
  Forall (passes_over instance) table ->
  dispatch_on_type table instance = None.
Proof.
  induction 1 as [|[k f] table Hk _ IH]; simpl; [reflexivity|].
  unfold passes_over in Hk. simpl in Hk. now rewrite Hk.
Qed.

Lemma dispatch_None_inv table instance :
  dispatch_on_type table instance = None ->
  Forall (passes_over instance) table.
Proof.
  induction table as [|[k f] table IH]; simpl; [constructor|].
  destruct (key_selects k instance) eqn:E; [discriminate|].
  intros H. constructor; [exact E | auto].
Qed.

End Dispatch.

Lemma testDescription_priority (t : Test) :
  testDescription t
  = if isinstance (test t) nose_case_MethodTestCase
    then Some (noseMethodDescription (test t))
    else if isinstance (test t) nose_case_FunctionTestCase
    then Some (noseFunctionDescription (test t))
    else if isinstance (test t) doctest_DocTestCase
    then Some (doctestExamplesDescription (test t))
    else if isinstance (test t) unittest_TestCase
    then Some (unittestMethodDescription (test t))
    else None.
Proof. reflexivity. Qed.

Lemma testDescription_doctest (t : Test) :
  isinstance (test t) doctest_DocTestCase = true ->
  isinstance (test t) unittest_TestCase = true
  /\ testDescription t = Some (doctestExamplesDescription (test t))
  /\ testDescription t <> Some (unittestMethodDescription (test t)).
Proof.
  destruct t as [[| | | | |n d [m|f ds a|dt|]|[]|] ctx]; simpl;
    try discriminate.
  intros _. split; [reflexivity|]. split; [reflexivity|].
  unfold testDescription. simpl. unfold result_map.
  destruct (py_or d _); simpl; discriminate.
Qed.

(** C2.  [dispatch_on_type] returns [func(instance)] for the first entry
    whose key is [True] or a class of which the instance is an instance,
    whatever the later entries are; [testDescription] thereby tries the
    nose method case, the nose function case, the doctest case and the
    unittest case in this order, so a doctest case, which is a
    [unittest.TestCase] too, gets the doctest description and never the
    unittest one. *)
Theorem dispatch_on_type_first_match :
  (forall (R : Type) (pre post : list (dispatch_key * (pyobject -> R)))
          key func instance,
      Forall (passes_over instance) pre ->
      key_selects key instance = true ->
      dispatch_on_type (pre ++ (key, func) :: post) instance
      = Some (func instance))
  /\ (forall t,
        testDescription t
        = if isinstance (test t) nose_case_MethodTestCase
          then Some (noseMethodDescription (test t))
          else if isinstance (test t) nose_case_FunctionTestCase
          then Some (noseFunctionDescription (test t))
          else if isinstance (test t) doctest_DocTestCase
          then Some (doctestExamplesDescription (test t))
          else if isinstance (test t) unittest_TestCase
          then Some (unittestMethodDescription (test t))
          else None)
  /\ (forall t,
        isinstance (test t) doctest_DocTestCase = true ->
        isinstance (test t) unittest_TestCase = true
        /\ testDescription t = Some (doctestExamplesDescription (test t))
        /\ testDescription t <> Some (unittestMethodDescription (test t))).
Proof.
  split; [|split].
  - intros R. apply dispatch_first_match.
  - apply testDescription_priority.
  - apply testDescription_doctest.
Qed.

(** C9.  When no entry of the table matches, [dispatch_on_type] returns
    [None]; so for a test object of no supported type [testDescription] is
    [None] and [print_spec] returns without raising, having printed
    nothing and changed nothing. *)
Theorem dispatch_on_type_no_match :
  (forall (R : Type) (table : list (dispatch_key * (pyobject -> R))) instance,
      Forall (passes_over instance) table ->
      dispatch_on_type table instance = None)
  /\ (forall t,
        Forall (passes_over (test t)) supported_test_types ->
        testDescription t = None
        /\ (forall colorized status s,
              SpecOutputStream.print_spec colorized t status s = (Ok tt, s))
        /\ (forall color status p,
              _print_spec color t status p = (Ok tt, p))).
Proof.
  split; [intros R; apply dispatch_no_match|].
  intros t H. apply dispatch_no_match in H.
  assert (forall colorized status s,
             SpecOutputStream.print_spec colorized t status s = (Ok tt, s)) as Hs.
  { intros colorized status s. unfold SpecOutputStream.print_spec, bind,
      lift_result, testDescription. now rewrite H. }
  split; [exact H|]. split; [exact Hs|].
  intros color status p. unfold _print_spec.
  destruct (_ && _); [reflexivity|].
  unfold on_stream_do. rewrite Hs. now destruct p.
Qed.

Lemma dispatch_on_type_first_match_witness :
  let case := PyTestCase "runTest" None
                (DocTestCase {| name := "m.f"; examples := [] |}) in
  dispatch_on_type supported_test_types case
  = Some (doctestExamplesDescription case)
  /\ testDescription {| test := case; context := PyNone |}
     <> Some (unittestMethodDescription case).
Proof.
  intros case. split.
  - apply (proj1 dispatch_on_type_first_match (result spec_value)
             [ (KeyType nose_case_MethodTestCase, noseMethodDescription);
               (KeyType nose_case_FunctionTestCase, noseFunctionDescription) ]
             [ (KeyType unittest_TestCase, unittestMethodDescription) ]
             (KeyType doctest_DocTestCase) doctestExamplesDescription case).
    + repeat constructor.
    + reflexivity.
  - apply (proj2 (proj2 dispatch_on_type_first_match)
             {| test := case; context := PyNone |}).
    reflexivity.
Defined.

Lemma dispatch_on_type_no_match_witness :
  let t := {| test := PyOther "object"; context := PyNone |} in
  testDescription t = None
  /\ addSuccess t {| _colorize := colorize_plain; spec_doctests := OptNone;
                     current_context := PyNone;
                     stream := OutputStream.init [] [] |}
     = (Ok tt, {| _colorize := colorize_plain; spec_doctests := OptNone;
                  current_context := PyNone;
                  stream := OutputStream.init [] [] |}).
Proof.
  intros t.
  assert (Forall (passes_over (test t)) supported_test_types) as H
    by (repeat constructor).
  split.
  - apply (proj1 (proj2 dispatch_on_type_no_match t H)).
  - apply (proj2 (proj2 (proj2 dispatch_on_type_no_match t H))).
Defined.

(** ** Colors *)

Section Lines.

Import PyStr.

Lemma join_cons (x : string) (l : list string) :
  join "" (x :: l) = x ++ join "" l.
Proof. destruct l; simpl; [now rewrite app_empty_r | reflexivity]. Qed.

Lemma app_last (s : string) (c : ascii) (t : string) :
  (s ++ String c "") ++ t = s ++ String c t.
Proof. now rewrite app_assoc_str. Qed.

(** The lines of a text, terminators included, are the text cut in
    pieces. *)
Lemma splitlines_from_join (s cur : string) :
  join "" (splitlines_from cur s) = cur ++ s.
Proof.
  remember (String.length s) as n eqn:Hn. revert s cur Hn.
  induction n as [n IH] using lt_wf_ind. intros [|c s] cur Hn.
  - simpl. rewrite app_empty_r. now destruct cur.
  - cbn [splitlines_from]. simpl in Hn.
    destruct (Ascii.eqb_spec c LF) as [->|NL].
    { rewrite join_cons, (IH (String.length s)) by (lia || reflexivity).
      now rewrite app_nil, app_last. }
    destruct (Ascii.eqb_spec c CR) as [->|NC].
    + destruct s as [|d s].
      * rewrite join_cons. simpl splitlines_from. simpl join.
        now rewrite app_empty_r.
      * destruct (Ascii.eqb_spec d LF) as [->|ND].
        -- rewrite join_cons, (IH (String.length s))
             by (simpl in Hn; lia || reflexivity).
           now rewrite app_nil, app_assoc_str.
        -- rewrite join_cons, (IH (String.length (String d s)))
             by (lia || reflexivity).
           now rewrite app_nil, app_last.
    + rewrite (IH (String.length s)) by (lia || reflexivity).
      apply app_last.
Qed.

Lemma splitlines_keepends_join (text : string) :
  join "" (splitlines_keepends text) = text.
Proof. apply splitlines_from_join. Qed.

Lemma in_color_lines_wrapped (color code : string) (lines : list string) :
  colors !! color = Some code ->
  in_color_lines color lines = Ok (Prose.wrapped code color_end lines).
Proof.
  intros H. induction lines as [|line rest IH]; [reflexivity|].
  cbn [in_color_lines]. unfold colors_getitem. rewrite H.
  cbn [result_bind]. rewrite IH. reflexivity.
Qed.

End Lines.

Lemma configure_colorize (options : Options) (p : Spec) :
  _colorize (fst (configure options p))
  = if opt_truthy (spec_color options)
    then colorize_in_color else colorize_plain.
Proof.
  unfold configure. now destruct (opt_truthy (enable_plugin_spec options)).
Qed.

(** C7.  The color flag switches colorization: with the spec-color option
    off the plugin's colorize function returns the text as it is, for
    every color name; with it on it is [in_color], which puts each line of
    the text, terminator included, between the escape sequence of the
    color and the reset code ESC [1;0m. *)
Theorem spec_color_toggles_colorization :
  (forall options p color text,
      opt_truthy (spec_color options) = false ->
      call_colorize (_colorize (fst (configure options p))) color text
      = Ok text)
  /\ (forall options p color text,
        opt_truthy (spec_color options) = true ->
        call_colorize (_colorize (fst (configure options p))) color text
        = in_color color text)
  /\ (forall color code text,
        colors !! color = Some code ->
        in_color color text
        = Ok (Prose.wrapped code color_end (PyStr.splitlines_keepends text)))
  /\ (forall text, PyStr.join "" (PyStr.splitlines_keepends text) = text)
  /\ in_color "red" ("a" ++ newline ++ "b")
     = Ok (String "027" "[1;31m" ++ "a" ++ newline ++ String "027" "[1;0m"
           ++ String "027" "[1;31m" ++ "b" ++ String "027" "[1;0m")
  /\ color_end = String "027" "[1;0m"
  /\ colors !! "green" = Some (String "027" "[1;32m")
  /\ colors !! "red" = Some (String "027" "[1;31m")
  /\ colors !! "yellow" = Some (String "027" "[1;33m").
Proof.
  split; [|split; [|split; [|split; [|split]]]].
  - intros options p color text H. now rewrite configure_colorize, H.
  - intros options p color text H. now rewrite configure_colorize, H.
  - intros color code text H. now apply in_color_lines_wrapped.
  - apply splitlines_keepends_join.
  - reflexivity.
  - repeat split; reflexivity.
Qed.

Lemma spec_color_toggles_colorization_witness :
  let p := {| _colorize := colorize_plain; spec_doctests := OptNone;
              current_context := PyNone;
              stream := OutputStream.init [] [] |} in
  call_colorize
    (_colorize (fst (configure {| enable_plugin_spec := OptTrue;
                                  verbosity := 1; spec_color := OptNone;
                                  opt_spec_doctests := OptNone |} p)))
    "purple" "- works" = Ok "- works"
  /\ call_colorize
       (_colorize (fst (configure {| enable_plugin_spec := OptTrue;
                                     verbosity := 1; spec_color := OptTrue;
                                     opt_spec_doctests := OptNone |} p)))
       "red" "- works" = in_color "red" "- works"
  /\ in_color "red" ("a" ++ newline ++ "b")
     = Ok (Prose.wrapped (String "027" "[1;31m") color_end
             (PyStr.splitlines_keepends ("a" ++ newline ++ "b"))).
Proof.
  intros p. split; [|split].
  - apply (proj1 spec_color_toggles_colorization). reflexivity.
  - apply (proj1 (proj2 spec_color_toggles_colorization)). reflexivity.
  - apply (proj1 (proj2 (proj2 spec_color_toggles_colorization))).
    reflexivity.
Defined.

(** ** The switchable stream *)

Section Printing.

Import OutputStream SpecOutputStream.

Lemma print_text_effect (text : string) (s : OutputStream.t) :
  print_text text s
  = {| capture_stream := capture_stream s;
       on_stream := on_stream s ++ [text];
       off_stream := off_stream s;
       OutputStream.stream := OffStream |}.
Proof. reflexivity. Qed.

Lemma write_when_off (text : string) (s : OutputStream.t) :
  OutputStream.stream s = OffStream ->
  write text s
  = {| capture_stream := capture_stream s;
       on_stream := on_stream s;
       off_stream := off_stream s ++ [text];
       OutputStream.stream := OffStream |}.
Proof. intros H. unfold write. now rewrite H. Qed.

Lemma print_lines_effect (lines : list string) (s : OutputStream.t) :
  let s' := fold_left (fun s l => print_line l s) lines s in
  capture_stream s' = capture_stream s
  /\ off_stream s' = off_stream s
  /\ on_stream s' = (on_stream s ++ map (fun l => (l ++ newline)%string) lines)%list
  /\ OutputStream.stream s'
     = match lines with [] => OutputStream.stream s | _ => OffStream end.
Proof.
  revert s. induction lines as [|l lines IH]; intros s; simpl.
  - now rewrite app_nil_r.
  - destruct (IH (print_line l s)) as (Hc & Hoff & Hon & Hsel).
    rewrite Hc, Hoff, Hon, Hsel. unfold print_line.
    rewrite print_text_effect. simpl. rewrite <- app_assoc. simpl.
    repeat split. now destruct lines.
Qed.

Lemma object_text_str (sp : string) (status : option string) :
  object_text (str_value sp) status = Ok (spec_text sp status).
Proof. unfold object_text, spec_text. now destruct (truthy_opt status). Qed.

Lemma _print_spec_value (colorized : string -> result string)
    (f : string -> string) (v : pyvalue) (status : option string)
    (text : string) (s : OutputStream.t) :
  (forall text, colorized text = Ok (f text)) ->
  object_text v status = Ok text ->
  SpecOutputStream._print_spec colorized v status s
  = (Ok tt, print_line (f text) s).
Proof.
  intros Hf. unfold SpecOutputStream._print_spec, object_text.
  destruct (truthy_opt status); intros ->;
    unfold bind, lift_result, modify; now rewrite Hf.
Qed.

Lemma _print_spec_value_raises (colorized : string -> result string)
    (v : pyvalue) (status : option string) (e : exn) (s : OutputStream.t) :
  object_text v status = Raise e ->
  SpecOutputStream._print_spec colorized v status s = (Raise e, s).
Proof.
  unfold SpecOutputStream._print_spec, object_text.
  destruct (truthy_opt status); intros ->; reflexivity.
Qed.

Lemma for_each_print_spec (colorized : string -> result string)
    (f : string -> string) (status : option string)
    (items : list string) (s : OutputStream.t) :
  (forall text, colorized text = Ok (f text)) ->
  for_each items
    (fun sp => SpecOutputStream._print_spec colorized (str_value sp) status) s
  = (Ok tt,
     fold_left (fun s l => print_line l s)
               (map f (map (fun sp => spec_text sp status) items)) s).
Proof.
  intros Hf. revert s. induction items as [|sp items IH]; intros s;
    [reflexivity|].
  cbn [for_each map fold_left]. unfold bind at 1.
  rewrite (_print_spec_value colorized f (str_value sp) status
             (spec_text sp status) s Hf (object_text_str sp status)).
  apply IH.
Qed.

Lemma print_spec_effect (colorized : string -> result string)
    (f : string -> string) (t : Test) (status : option string)
    (texts : list string) (s : OutputStream.t) :
  (forall text, colorized text = Ok (f text)) ->
  report_texts t status = Ok texts ->
  print_spec colorized t status s
  = (Ok tt, fold_left (fun s l => print_line l s) (map f texts) s).
Proof.
  intros Hf. unfold report_texts, print_spec, bind at 1, lift_result.
  destruct (commute (testDescription t)) as [d|e]; [|discriminate].
  cbn [result_bind].
  destruct d as [[sp|items| |v]|]; cbn [spec_texts].
  - destruct (PyStr.truthy sp); intros [= <-]; [|reflexivity].
    now rewrite (_print_spec_value colorized f (str_value sp) status
                   (spec_text sp status) s Hf (object_text_str sp status)).
  - intros [= <-]. now apply for_each_print_spec.
  - now intros [= <-].
  - unfold bind, lift_result.
    destruct (py_bool v) as [[]|e]; cbn [result_bind]; try discriminate.
    + destruct (object_text v status) as [text|e] eqn:Ht;
        cbn [result_map result_bind]; intros [= <-].
      now rewrite (_print_spec_value colorized f v status text s Hf Ht).
    + now intros [= <-].
  - now intros [= <-].
Qed.

(** What raises, raises before anything is printed. *)
Lemma print_spec_raises (colorized : string -> result string)
    (t : Test) (status : option string) (e : exn) (s : OutputStream.t) :
  report_texts t status = Raise e ->
  print_spec colorized t status s = (Raise e, s).
Proof.
  unfold report_texts, print_spec, bind at 1, lift_result.
  destruct (commute (testDescription t)) as [d|e'];
    [|now intros [= <-]].
  cbn [result_bind].
  destruct d as [[sp|items| |v]|]; cbn [spec_texts]; try discriminate.
  unfold bind, lift_result.
  destruct (py_bool v) as [[]|e']; cbn [result_bind]; try discriminate.
  - destruct (object_text v status) as [text|e'] eqn:Ht;
      cbn [result_map result_bind]; [discriminate|].
    intros [= <-]. now apply _print_spec_value_raises.
  - now intros [= <-].
Qed.

End Printing.

Lemma py_or_Ok (x : option string) (y : string) :
  exists s, py_or x (Ok y) = Ok s.
Proof.
  destruct x as [s|]; simpl; [destruct (PyStr.truthy s)|]; eauto.
Qed.

(** The dispatch table calls each description function on an object of
    the shape it expects: a test description raises only what [str] of
    an argument of a generated test raises. *)
Lemma testDescription_raises (t : Test) (e : exn) :
  testDescription t = Some (Raise e)
  <-> exists n doc f g arg,
        test t = PyTestCase n doc (FunctionTestCase f (Some g) arg)
        /\ description f = None
        /\ result_all (map py_str arg) = Raise e.
Proof.
  split.
  - destruct t as [[| | | | |n d [m|f ds a|dt|]|[]|] ctx];
      unfold testDescription; simpl; try discriminate.
    + destruct (py_or_Ok (func_getdoc m) (underscored2spec (func_name m)))
        as [s ->]. discriminate.
    + destruct ds as [g|].
      * destruct (description f) as [[| |]|] eqn:D; try discriminate.
        destruct (result_all (map py_str a)) eqn:R; [discriminate|].
        intros [= <-]. exists n, d, f, g, a. auto.
      * destruct (py_or_Ok (func_doc f) (underscored2spec (func_name f)))
          as [s ->]. discriminate.
    + destruct (py_or_Ok d (underscored2spec n)) as [s ->]. discriminate.
  - intros (n & doc & f & g & arg & Ht & D & R).
    destruct t as [tt ctx]. simpl in Ht. subst tt.
    unfold testDescription. simpl. now rewrite D, R.
Qed.

(** A description that is neither a string nor a generator nor [None] is
    what the [description] attribute of a generated test holds. *)
Lemma testDescription_object (t : Test) (v : pyvalue) :
  testDescription t = Some (Ok (SpecObject v))
  <-> exists n doc f g arg,
        test t = PyTestCase n doc (FunctionTestCase f (Some g) arg)
        /\ description f = Some (AttrObject v).
Proof.
  split.
  - destruct t as [[| | | | |n d [m|f ds a|dt|]|[]|] ctx];
      unfold testDescription; simpl; try discriminate.
    + destruct (py_or_Ok (func_getdoc m) (underscored2spec (func_name m)))
        as [s ->]. discriminate.
    + destruct ds as [g|].
      * destruct (description f) as [[| |w]|] eqn:D; try discriminate.
        -- intros [= <-]. exists n, d, f, g, a. auto.
        -- destruct (result_all (map py_str a)); discriminate.
      * destruct (py_or_Ok (func_doc f) (underscored2spec (func_name f)))
          as [s ->]. discriminate.
    + destruct (py_or_Ok d (underscored2spec n)) as [s ->]. discriminate.
  - intros (n & doc & f & g & arg & Ht & D).
    destruct t as [tt ctx]. simpl in Ht. subst tt.
    unfold testDescription. simpl. now rewrite D.
Qed.




Lemma call_colorize_known (c : colorizer) (color code text : string) :
  colors !! color = Some code ->
  call_colorize c color text = Ok (paint c code text).
Proof.
  intros H. destruct c; [|reflexivity]. now apply in_color_lines_wrapped.
Qed.

Lemma _print_spec_hidden (color : string) (t : Test)
    (status : option string) (p : Spec) :
  doctest_hidden p (test t) = true ->
  _print_spec color t status p = (Ok tt, p).
Proof. unfold _print_spec, doctest_hidden. now intros ->. Qed.

(** When the description or its texts raise, nothing has been printed
    yet. *)
Lemma _print_spec_raises (color : string) (t : Test)
    (status : option string) (p : Spec) (e : exn) :
  doctest_hidden p (test t) = false ->
  report_texts t status = Raise e ->
  _print_spec color t status p = (Raise e, p).
Proof.
  intros Hshown Hd. unfold _print_spec. unfold doctest_hidden in Hshown.
  rewrite Hshown. unfold on_stream_do.
  rewrite (print_spec_raises _ t status e _ Hd). now destruct p.
Qed.

Lemma _print_spec_reports (color code : string) (t : Test)
    (status : option string) (p : Spec) :
  colors !! color = Some code ->
  doctest_hidden p (test t) = false ->
  reports t color status (_print_spec color t status) p.
Proof.
  intros Hcode Hshown. unfold reports.
  destruct (report_texts t status) as [texts|e] eqn:Hd;
    [|now apply _print_spec_raises].
  set (f := paint (_colorize p) code).
  exists (map f texts). eexists. split; [|split].
  - clear Hd. induction texts; constructor; auto.
    now apply call_colorize_known.
  - unfold _print_spec. unfold doctest_hidden in Hshown. rewrite Hshown.
    unfold on_stream_do.
    rewrite (print_spec_effect _ f t status texts); [reflexivity| |exact Hd].
    intros text. now apply call_colorize_known.
  - destruct (print_lines_effect (map f texts) (stream p))
      as (Hc & Hoff & Hon & Hsel).
    unfold prints. simpl. auto 10.
Qed.

(** ** The outcome hooks *)

Lemma addError_cases (t : Test) (err : exc_info) :
  addError t err
  = if isinstance (exc_value err) nose_DeprecatedTest
    then _print_spec "yellow" t (Some "DEPRECATED")
    else if isinstance (exc_value err) nose_SkipTest
    then _print_spec "yellow" t (Some "SKIPPED")
    else _print_spec "red" t (Some "ERROR").
Proof.
  unfold addError, supported_error_types. simpl.
  now destruct (isinstance (exc_value err) nose_DeprecatedTest),
    (isinstance (exc_value err) nose_SkipTest).
Qed.

Lemma prints_nothing (p : Spec) : prints [] p p.
Proof. unfold prints. simpl. now rewrite app_nil_r. Qed.

(** What a call of [_print_spec] with a color of the plugin can do. *)
Lemma _print_spec_outcome (color code : string) (t : Test)
    (status : option string) (p : Spec) :
  colors !! color = Some code ->
  (exists lines p',
      _print_spec color t status p = (Ok tt, p') /\ prints lines p p')
  \/ (exists e,
        _print_spec color t status p = (Raise e, p)
        /\ doctest_hidden p (test t) = false
        /\ report_texts t status = Raise e).
Proof.
  intros Hcode. destruct (doctest_hidden p (test t)) eqn:E.
  - left. exists [], p.
    split; [now apply _print_spec_hidden | apply prints_nothing].
  - pose proof (_print_spec_reports color code t status p Hcode E) as H.
    unfold reports in H.
    destruct (report_texts t status) as [texts|e].
    + left. destruct H as (lines & p' & _ & Hrun & Hpr). eauto.
    + right. eauto.
Qed.

Lemma _print_spec_prints (color code : string) (t : Test)
    (status : option string) (p : Spec) :
  colors !! color = Some code ->
  (forall e, report_texts t status <> Raise e) ->
  exists lines p',
    _print_spec color t status p = (Ok tt, p') /\ prints lines p p'.
Proof.
  intros Hcode Hdesc.
  destruct (_print_spec_outcome color code t status p Hcode)
    as [H|(e & _ & _ & H)]; [exact H | now destruct (Hdesc e)].
Qed.




(** ** [beforeTest] *)

Lemma beforeTest_same_context (t : Test) (p : Spec) :
  testContext t = current_context p ->
  beforeTest t p = (Ok tt, set_stream (OutputStream.off (stream p)) p).
Proof.
  intros H. unfold beforeTest, bind, gets.
  rewrite bool_decide_eq_false_2 by (intros N; now apply N).
  reflexivity.
Qed.

Lemma beforeTest_hidden_context (t : Test) (p : Spec) :
  testContext t <> current_context p ->
  doctest_hidden p (testContext t) = true ->
  beforeTest t p
  = (Ok tt,
     set_stream (OutputStream.off (stream p))
                (set_current_context (testContext t) p)).
Proof.
  intros N H. unfold beforeTest, bind, gets.
  rewrite bool_decide_eq_true_2 by exact N.
  unfold _print_context. unfold doctest_hidden in H. rewrite H.
  reflexivity.
Qed.

Lemma beforeTest_new_context (t : Test) (p : Spec) (d : option string) :
  testContext t <> current_context p ->
  doctest_hidden p (testContext t) = false ->
  commute (contextDescription (testContext t)) = Ok d ->
  beforeTest t p
  = (Ok tt,
     {| _colorize := _colorize p;
        spec_doctests := spec_doctests p;
        current_context := testContext t;
        stream :=
          {| OutputStream.capture_stream :=
               OutputStream.capture_stream (stream p);
             OutputStream.on_stream :=
               OutputStream.on_stream (stream p)
               ++ [newline ++ format_s d ++ newline];
             OutputStream.off_stream := OutputStream.off_stream (stream p);
             OutputStream.stream := OffStream |} |}).
Proof.
  intros N H Hd. unfold beforeTest, bind, gets.
  rewrite bool_decide_eq_true_2 by exact N.
  unfold _print_context. unfold doctest_hidden in H. rewrite H.
  unfold on_stream_do, SpecOutputStream.print_context, bind, lift_result.
  rewrite Hd. unfold modify, SpecOutputStream.print_line.
  rewrite print_text_effect. simpl. now rewrite app_assoc_str.
Qed.

(** When the description of the new context raises, so does
    [beforeTest], and nothing is changed. *)
Lemma beforeTest_raises (t : Test) (p : Spec) (e : exn) :
  testContext t <> current_context p ->
  doctest_hidden p (testContext t) = false ->
  commute (contextDescription (testContext t)) = Raise e ->
  beforeTest t p = (Raise e, p).
Proof.
  intros N H Hd. unfold beforeTest, bind, gets.
  rewrite bool_decide_eq_true_2 by exact N.
  unfold _print_context. unfold doctest_hidden in H. rewrite H.
  unfold on_stream_do, SpecOutputStream.print_context, bind, lift_result.
  rewrite Hd. now destruct p.
Qed.

Lemma beforeTest_leaves_off (t : Test) (p p' : Spec) :
  beforeTest t p = (Ok tt, p') -> selected_stream p' = OffStream.
Proof.
  destruct (decide (testContext t = current_context p)) as [E|N].
  - rewrite (beforeTest_same_context t p E). now intros [= <-].
  - destruct (doctest_hidden p (testContext t)) eqn:H.
    + rewrite (beforeTest_hidden_context t p N H). now intros [= <-].
    + destruct (commute (contextDescription (testContext t))) as [d|e] eqn:Hd.
      * rewrite (beforeTest_new_context t p d N H Hd). now intros [= <-].
      * rewrite (beforeTest_raises t p e N H Hd). discriminate.
Qed.

(** C6, amended.  [beforeTest] compares the context of the test with the
    stored one.  If they are equal, it prints no heading, keeps
    [current_context] and selects the off stream.  If they differ and the
    new context is a doctest case while doctest support is off, it prints
    nothing, stores the new context and selects the off stream.  If they
    differ otherwise, it computes the description of the new context:
    when that raises, [beforeTest] raises the same exception and changes
    nothing, so that no heading is printed, [current_context] is kept and
    the selected stream is not switched; when it does not, [beforeTest]
    prints the description as a heading, stores the new context and
    selects the off stream.  Nothing else of the plugin changes in any
    case. *)
Theorem beforeTest_tracks_context (t : Test) (p : Spec) :
  (testContext t = current_context p ->
   beforeTest t p
   = (Ok tt,
      {| _colorize := _colorize p;
         spec_doctests := spec_doctests p;
         current_context := current_context p;
         stream := OutputStream.set_stream OffStream (stream p) |}))
  /\ (testContext t <> current_context p ->
      doctest_hidden p (testContext t) = true ->
      beforeTest t p
      = (Ok tt,
         {| _colorize := _colorize p;
            spec_doctests := spec_doctests p;
            current_context := testContext t;
            stream := OutputStream.set_stream OffStream (stream p) |}))
  /\ (forall d,
        testContext t <> current_context p ->
        doctest_hidden p (testContext t) = false ->
        commute (contextDescription (testContext t)) = Ok d ->
        beforeTest t p
        = (Ok tt,
           {| _colorize := _colorize p;
              spec_doctests := spec_doctests p;
              current_context := testContext t;
              stream :=
                {| OutputStream.capture_stream :=
                     OutputStream.capture_stream (stream p);
                   OutputStream.on_stream :=
                     OutputStream.on_stream (stream p)
                     ++ [newline ++ format_s d ++ newline];
                   OutputStream.off_stream :=
                     OutputStream.off_stream (stream p);
                   OutputStream.stream := OffStream |} |}))
  /\ (forall e,
        testContext t <> current_context p ->
        doctest_hidden p (testContext t) = false ->
        commute (contextDescription (testContext t)) = Raise e ->
        beforeTest t p = (Raise e, p)).
Proof.
  split; [|split; [|split]].
  - apply beforeTest_same_context.
  - apply beforeTest_hidden_context.
  - intros d. apply beforeTest_new_context.
  - intros e. apply beforeTest_raises.
Qed.

Lemma beforeTest_tracks_context_witness :
  beforeTest Samples.singleton_test Samples.plugin
  = (Ok tt,
     {| _colorize := colorize_plain;
        spec_doctests := OptNone;
        current_context := Samples.TestFoobar;
        stream :=
          {| OutputStream.capture_stream := StringIO.empty;
             OutputStream.on_stream := [newline ++ "Foobar" ++ newline];
             OutputStream.off_stream := [];
             OutputStream.stream := OffStream |} |})
  /\ beforeTest Samples.doctest_test Samples.plugin
     = (Ok tt,
        {| _colorize := colorize_plain;
           spec_doctests := OptNone;
           current_context := Samples.doctest_case;
           stream := OutputStream.set_stream OffStream
                       (OutputStream.init [] []) |})
  /\ beforeTest {| test := PyOther "object"; context := PyNone |}
                Samples.plugin
     = (Ok tt,
        {| _colorize := colorize_plain;
           spec_doctests := OptNone;
           current_context := PyNone;
           stream := OutputStream.set_stream OffStream
                       (OutputStream.init [] []) |})
  /\ beforeTest {| test := PyTestCase "test_x" None PlainTestCase;
                   context := PyNewClass {| obj_id := 7; __name__ := "Test";
                                            getdoc := None |} |}
                Samples.plugin
     = (Raise IndexError, Samples.plugin).
Proof.
  split; [|split; [|split]].
  - apply (proj1 (proj2 (proj2 (beforeTest_tracks_context
                                  Samples.singleton_test Samples.plugin)))
             (Some "Foobar")).
    + discriminate.
    + reflexivity.
    + reflexivity.
  - apply (proj1 (proj2 (beforeTest_tracks_context Samples.doctest_test
                           Samples.plugin))).
    + discriminate.
    + reflexivity.
  - apply (proj1 (beforeTest_tracks_context
                    {| test := PyOther "object"; context := PyNone |}
                    Samples.plugin)).
    reflexivity.
  - apply (proj2 (proj2 (proj2 (beforeTest_tracks_context
             {| test := PyTestCase "test_x" None PlainTestCase;
                context := PyNewClass {| obj_id := 7; __name__ := "Test";
                                         getdoc := None |} |}
             Samples.plugin)))).
    + discriminate.
    + reflexivity.
    + reflexivity.
Defined.

(** C6 as stated fails: with doctest support off, [beforeTest] on a
    doctest stores the new context, whose description is "mod.f", but
    prints no heading. *)
Lemma hidden_doctest_context_is_not_printed :
  testContext Samples.doctest_test <> current_context Samples.plugin
  /\ contextDescription (testContext Samples.doctest_test)
     = Some (Ok "mod.f")
  /\ exists p',
       beforeTest Samples.doctest_test Samples.plugin = (Ok tt, p')
       /\ current_context p' = testContext Samples.doctest_test
       /\ OutputStream.on_stream (stream p') = [].
Proof.
  split; [discriminate|]. split; [reflexivity|].
  eexists. split; [reflexivity|]. split; reflexivity.
Qed.

(** ** Between [beforeTest] and [afterTest] *)

Lemma host_writes_cons (e : event) (events : list event) :
  host_writes (e :: events) = (host_writes [e] ++ host_writes events)%list.
Proof. unfold host_writes. simpl. now destruct e. Qed.

Lemma host_writes_app (a b : list event) :
  host_writes (a ++ b) = (host_writes a ++ host_writes b)%list.
Proof.
  induction a as [|e a IH]; [reflexivity|].
  rewrite <- app_comm_cons, (host_writes_cons e (a ++ b)),
    (host_writes_cons e a), IH.
  now rewrite app_assoc.
Qed.

(** With the off stream selected, an event either returns normally, the
    off stream still selected and the host's text, if it was a write, put
    on the off stream; or it raises and changes nothing. *)
Lemma run_event_from_off (e : event) (p p' : Spec) (r : result unit) :
  selected_stream p = OffStream ->
  run_event e p = (r, p') ->
  (r = Ok tt
   /\ selected_stream p' = OffStream
   /\ OutputStream.off_stream (stream p')
      = (OutputStream.off_stream (stream p) ++ host_writes [e])%list
   /\ OutputStream.capture_stream (stream p')
      = OutputStream.capture_stream (stream p))
  \/ (exists x, r = Raise x /\ p' = p).
Proof.
  intros Hoff.
  assert (forall color code t status,
             colors !! color = Some code ->
             _print_spec color t status p = (r, p') ->
             (r = Ok tt
              /\ selected_stream p' = OffStream
              /\ OutputStream.off_stream (stream p')
                 = (OutputStream.off_stream (stream p) ++ [])%list
              /\ OutputStream.capture_stream (stream p')
                 = OutputStream.capture_stream (stream p))
             \/ (exists x, r = Raise x /\ p' = p)) as Hook.
  { intros color code t status Hcode Hrun.
    destruct (_print_spec_outcome color code t status p Hcode)
      as [(lines & p1 & H1 & _ & _ & _ & Hc & Ho & _ & Hsel)
         |(x & H1 & _)];
      rewrite H1 in Hrun; injection Hrun as <- <-.
    - left. rewrite app_nil_r. repeat split; auto.
      unfold selected_stream in *. rewrite Hsel. now destruct lines.
    - right. eauto. }
  destruct e as [text|t|t err|t err]; simpl run_event.
  - intros [= <- <-]. left. unfold selected_stream in *. simpl.
    rewrite (write_when_off text _ Hoff). simpl. auto.
  - apply (Hook "green" (String "027" "[1;32m")). reflexivity.
  - apply (Hook "red" (String "027" "[1;31m")). reflexivity.
  - rewrite addError_cases.
    destruct (isinstance _ nose_DeprecatedTest);
      [|destruct (isinstance _ nose_SkipTest)].
    + apply (Hook "yellow" (String "027" "[1;33m")). reflexivity.
    + apply (Hook "yellow" (String "027" "[1;33m")). reflexivity.
    + apply (Hook "red" (String "027" "[1;31m")). reflexivity.
Qed.

Lemma run_events_from_off (events : list event) (p p' : Spec)
    (r : result unit) :
  selected_stream p = OffStream ->
  run_events events p = (r, p') ->
  selected_stream p' = OffStream
  /\ OutputStream.capture_stream (stream p')
     = OutputStream.capture_stream (stream p)
  /\ exists done rest,
       events = (done ++ rest)%list
       /\ OutputStream.off_stream (stream p')
          = (OutputStream.off_stream (stream p) ++ host_writes done)%list
       /\ (r = Ok tt -> rest = []).
Proof.
  revert p. induction events as [|e events IH]; intros p Hoff.
  - intros [= <- <-]. split; [exact Hoff|]. split; [reflexivity|].
    exists [], []. unfold host_writes. simpl. now rewrite app_nil_r.
  - unfold run_events. cbn [for_each]. unfold bind at 1.
    destruct (run_event e p) as [r1 p1] eqn:E.
    destruct (run_event_from_off e p p1 r1 Hoff E)
      as [(-> & Hoff1 & Ho1 & Hc1)|(x & -> & ->)].
    + intros Hrun. destruct (IH p1 Hoff1 Hrun)
        as (Hoff2 & Hc2 & done & rest & -> & Ho2 & Hr).
      split; [exact Hoff2|]. split; [congruence|].
      exists (e :: done), rest. split; [reflexivity|].
      split; [|exact Hr].
      rewrite Ho2, Ho1, (host_writes_cons e done). now rewrite app_assoc.
    + intros [= <- <-]. split; [exact Hoff|]. split; [reflexivity|].
      exists [], (e :: events). split; [reflexivity|].
      split; [|discriminate]. unfold host_writes. simpl.
      now rewrite app_nil_r.
Qed.

(** Events whose descriptions and texts can be computed all return
    normally. *)
Lemma run_events_return (events : list event) (p : Spec) :
  Forall (fun ev =>
            match ev with
            | HostWrite _ => True
            | Success t | Failure t _ | Error t _ =>
                forall status x, report_texts t status <> Raise x
            end) events ->
  exists p', run_events events p = (Ok tt, p').
Proof.
  intros H. revert p. induction H as [|e events He _ IH]; intros p.
  - now exists p.
  - unfold run_events. cbn [for_each]. unfold bind at 1.
    assert (exists p1, run_event e p = (Ok tt, p1)) as [p1 ->].
    { destruct e as [text|t|t err|t err]; simpl run_event.
      - eexists. reflexivity.
      - destruct (_print_spec_prints "green" (String "027" "[1;32m") t None
                    p eq_refl (He _)) as (lines & p1 & H1 & _). eauto.
      - destruct (_print_spec_prints "red" (String "027" "[1;31m") t
                    (Some "FAILED") p eq_refl (He _)) as (lines & p1 & H1 & _).
        eauto.
      - rewrite addError_cases.
        destruct (isinstance _ nose_DeprecatedTest);
          [|destruct (isinstance _ nose_SkipTest)].
        + destruct (_print_spec_prints "yellow" (String "027" "[1;33m") t
                      (Some "DEPRECATED") p eq_refl (He _))
            as (lines & p1 & H1 & _). eauto.
        + destruct (_print_spec_prints "yellow" (String "027" "[1;33m") t
                      (Some "SKIPPED") p eq_refl (He _))
            as (lines & p1 & H1 & _). eauto.
        + destruct (_print_spec_prints "red" (String "027" "[1;31m") t
                      (Some "ERROR") p eq_refl (He _))
            as (lines & p1 & H1 & _). eauto. }
    apply IH.
Qed.

(** C5, amended.  Printing is deferred until the outcome is known:
    whenever [beforeTest] returns normally it leaves the discarding
    off stream selected; [print_text(t)] writes [t] once to the on stream
    and leaves the off stream selected; a write while the off stream is
    selected goes to the off stream and to no other.  So, starting with
    the off stream selected, through any sequence of outcome hooks and
    host writes, up to the first hook that raises if one does, the off
    stream stays selected, the capture buffer is untouched and the off
    stream has received exactly the host writes made; and the hooks all
    return normally when the descriptions and texts of their tests can be
    computed.  [afterTest] selects the capture stream: a host write that
    follows it directly goes to the capture buffer, and to neither the on
    stream nor the off stream. *)
Theorem printing_is_deferred :
  (forall t p p',
      beforeTest t p = (Ok tt, p') -> selected_stream p' = OffStream)
  /\ (forall text s,
        SpecOutputStream.print_text text s
        = {| OutputStream.capture_stream := OutputStream.capture_stream s;
             OutputStream.on_stream := OutputStream.on_stream s ++ [text];
             OutputStream.off_stream := OutputStream.off_stream s;
             OutputStream.stream := OffStream |})
  /\ (forall text s,
        OutputStream.stream s = OffStream ->
        OutputStream.write text s
        = {| OutputStream.capture_stream := OutputStream.capture_stream s;
             OutputStream.on_stream := OutputStream.on_stream s;
             OutputStream.off_stream := OutputStream.off_stream s ++ [text];
             OutputStream.stream := OffStream |})
  /\ (forall events p r p',
        selected_stream p = OffStream ->
        run_events events p = (r, p') ->
        selected_stream p' = OffStream
        /\ OutputStream.capture_stream (stream p')
           = OutputStream.capture_stream (stream p)
        /\ exists done rest,
             events = (done ++ rest)%list
             /\ OutputStream.off_stream (stream p')
                = (OutputStream.off_stream (stream p)
                   ++ host_writes done)%list
             /\ (r = Ok tt -> rest = []))
  /\ (forall events p,
        Forall (fun ev =>
                  match ev with
                  | HostWrite _ => True
                  | Success t | Failure t _ | Error t _ =>
                      forall status x, report_texts t status <> Raise x
                  end) events ->
        exists p', run_events events p = (Ok tt, p'))
  /\ (forall t p text,
        exists p1,
          afterTest t p = (Ok tt, p1)
          /\ selected_stream p1 = CaptureStream
          /\ OutputStream.write text (stream p1)
             = {| OutputStream.capture_stream :=
                    StringIO.write text
                      (OutputStream.capture_stream (stream p1));
                  OutputStream.on_stream :=
                    OutputStream.on_stream (stream p);
                  OutputStream.off_stream :=
                    OutputStream.off_stream (stream p);
                  OutputStream.stream := CaptureStream |}).
Proof.
  split; [|split; [|split; [|split; [|split]]]].
  - apply beforeTest_leaves_off.
  - apply print_text_effect.
  - apply write_when_off.
  - intros events p r p'. apply run_events_from_off.
  - apply run_events_return.
  - intros t p text. eexists. split; [reflexivity|]. split; reflexivity.
Qed.

Lemma printing_is_deferred_witness :
  exists p1 p2,
    beforeTest Samples.singleton_test Samples.plugin = (Ok tt, p1)
    /\ selected_stream p1 = OffStream
    /\ run_events [ HostWrite "test_is_a_singleton ... ";
                    Success Samples.singleton_test;
                    HostWrite "ok" ] p1 = (Ok tt, p2)
    /\ selected_stream p2 = OffStream
    /\ OutputStream.off_stream (stream p2)
       = ["test_is_a_singleton ... "; "ok"]
    /\ OutputStream.on_stream (stream p2)
       = [newline ++ "Foobar" ++ newline; "- is a singleton" ++ newline]
    /\ OutputStream.write "ok" (stream p1)
       = {| OutputStream.capture_stream :=
              OutputStream.capture_stream (stream p1);
            OutputStream.on_stream := OutputStream.on_stream (stream p1);
            OutputStream.off_stream :=
              OutputStream.off_stream (stream p1) ++ ["ok"];
            OutputStream.stream := OffStream |}.
Proof.
  destruct (beforeTest Samples.singleton_test Samples.plugin) as [r p1] eqn:E.
  assert (r = Ok tt) as -> by (injection E as <- _; reflexivity).
  pose proof (proj1 printing_is_deferred _ _ _ E) as Hoff.
  destruct (proj1 (proj2 (proj2 (proj2 (proj2 printing_is_deferred))))
              [ HostWrite "test_is_a_singleton ... ";
                Success Samples.singleton_test;
                HostWrite "ok" ] p1) as (p2 & Hrun).
  { repeat constructor. intros status x H. discriminate H. }
  destruct (proj1 (proj2 (proj2 (proj2 printing_is_deferred)))
              _ p1 (Ok tt) p2 Hoff Hrun) as (Hoff2 & _).
  exists p1, p2. split; [reflexivity|]. split; [exact Hoff|].
  split; [exact Hrun|]. split; [exact Hoff2|].
  split; [|split].
  - injection E as <-. injection Hrun as <-. reflexivity.
  - injection E as <-. injection Hrun as <-. reflexivity.
  - apply (proj1 (proj2 (proj2 printing_is_deferred))). exact Hoff.
Defined.

(** C5 as stated fails: a host write after [afterTest], between the
    outcome hooks of two tests, goes to the capture stream and not to the
    off stream. *)
Lemma host_write_after_afterTest_is_captured :
  exists p',
    (beforeTest Samples.singleton_test >>
     addSuccess Samples.singleton_test >>
     afterTest Samples.singleton_test >>
     run_event (HostWrite "between tests") >>
     beforeTest Samples.singleton_test >>
     addSuccess Samples.singleton_test)%py Samples.plugin = (Ok tt, p')
    /\ OutputStream.off_stream (stream p') = []
    /\ StringIO.buf (OutputStream.capture_stream (stream p'))
       = "between tests".
Proof. eexists. split; [reflexivity|]. split; reflexivity. Qed.

(** * Further properties of the code *)

(** ** Stripping a needle *)

(** X1.  [remove_leading] undoes prefixing: it gives [rest] back from
    [needle + rest], for every needle, the empty one included, and leaves
    a haystack that does not start with the needle as it is. *)
Theorem remove_leading_round_trip :
  (forall needle rest, remove_leading needle (needle ++ rest) = rest)
  /\ (forall needle haystack,
        (forall rest, haystack <> needle ++ rest) ->
        remove_leading needle haystack = haystack)
  /\ (forall haystack, remove_leading "" haystack = haystack).
Proof.
  split; [|split].
  - intros needle rest. rewrite remove_leading_prose.
    apply without_prefix_app.
  - intros needle haystack H. rewrite remove_leading_prose.
    now apply without_prefix_absent.
  - intros haystack. rewrite remove_leading_prose. reflexivity.
Qed.

Lemma remove_leading_round_trip_witness :
  remove_leading "Test" "ArbitraryName" = "ArbitraryName".
Proof.
  apply (proj1 (proj2 remove_leading_round_trip)).
  intros rest H. discriminate H.
Defined.

(** X2.  [remove_trailing] undoes suffixing: it gives [rest] back from
    [rest + needle], and leaves a haystack that does not end with the
    needle as it is.  With the empty needle, whose slice bound [-0] is
    [0], the haystack comes back unchanged. *)
Theorem remove_trailing_round_trip :
  (forall needle rest, remove_trailing needle (rest ++ needle) = rest)
  /\ (forall needle haystack,
        (forall rest, haystack <> rest ++ needle) ->
        remove_trailing needle haystack = haystack)
  /\ (forall haystack, remove_trailing "" haystack = haystack).
Proof.
  split; [|split].
  - intros needle rest. rewrite remove_trailing_prose.
    apply without_suffix_app.
  - intros needle haystack H. rewrite remove_trailing_prose.
    now apply without_suffix_absent.
  - intros haystack. rewrite remove_trailing_prose.
    rewrite <- (app_empty_r haystack) at 1. apply without_suffix_app.
Qed.

Lemma remove_trailing_round_trip_witness :
  remove_trailing "Test" "ArbitraryName" = "ArbitraryName".
Proof.
  apply (proj1 (proj2 remove_trailing_round_trip)).
  intros rest H. apply (f_equal Prose.reversed) in H.
  rewrite reversed_app in H. discriminate H.
Defined.

Lemma without_prefix_shorter (p s : string) :
  (String.length (Prose.without_prefix p s) <= String.length s)%nat.
Proof.
  unfold Prose.without_prefix.
  destruct (Prose.after_prefix p s) as [r|] eqn:E; simpl; [|lia].
  apply after_prefix_Some in E. rewrite E, app_size. lia.
Qed.

Lemma without_suffix_shorter (p s : string) :
  (String.length (Prose.without_suffix p s) <= String.length s)%nat.
Proof.
  destruct (without_suffix_inv p s) as [E|E]; rewrite E at 2;
    [|rewrite app_size]; lia.
Qed.

(** X3.  [remove_leading_and_trailing] takes one needle off each end:
    from [needle + middle + needle] it gives [middle], whatever the
    middle is, and it never makes the haystack longer. *)
Theorem remove_leading_and_trailing_middle :
  (forall needle middle,
      remove_leading_and_trailing needle (needle ++ middle ++ needle)
      = middle)
  /\ (forall needle haystack,
        (String.length (remove_leading_and_trailing needle haystack)
         <= String.length haystack)%nat).
Proof.
  split.
  - intros needle middle. unfold remove_leading_and_trailing.
    rewrite <- app_assoc_str.
    rewrite remove_trailing_prose, without_suffix_app.
    rewrite remove_leading_prose. apply without_prefix_app.
  - intros needle haystack. unfold remove_leading_and_trailing.
    rewrite remove_leading_prose, remove_trailing_prose.
    etransitivity; [apply without_prefix_shorter|].
    apply without_suffix_shorter.
Qed.

(** ** CamelCase names, continued *)

Lemma lowered_is_not_upper (c : ascii) :
  PyStr.is_upper c = true ->
  PyStr.is_upper (ascii_of_N (N_of_ascii c + 32)) = false.
Proof.
  destruct c as [[] [] [] [] [] [] [] []]; intros H;
    solve [reflexivity | discriminate H].
Qed.

Lemma spaced_lowercase_no_upper (s : string) :
  all_chars (fun c => negb (PyStr.is_upper c)) (Prose.spaced_lowercase s)
  = true.
Proof.
  induction s as [|c s IH]; [reflexivity|].
  cbn [Prose.spaced_lowercase]. destruct (PyStr.is_upper c) eqn:U;
    cbn [all_chars]; rewrite IH.
  - now rewrite (lowered_is_not_upper c U).
  - now rewrite U.
Qed.

Lemma spaced_lowercase_fixed (s : string) :
  all_chars (fun c => negb (PyStr.is_upper c)) s = true ->
  Prose.spaced_lowercase s = s.
Proof.
  induction s as [|c s IH]; [reflexivity|].
  cbn [all_chars Prose.spaced_lowercase].
  destruct (PyStr.is_upper c); simpl; [discriminate|].
  intros H. now rewrite IH.
Qed.

Lemma spaced_lowercase_size (s : string) :
  (String.length s <= String.length (Prose.spaced_lowercase s))%nat.
Proof.
  induction s as [|c s IH]; [reflexivity|].
  cbn [Prose.spaced_lowercase]. destruct (PyStr.is_upper c); simpl; lia.
Qed.

(** X4.  Whatever [camel2word] returns has no uppercase ASCII letter after
    its first character and is at least as long as the name; a name that
    has none after its first character comes back unchanged, so applying
    [camel2word] to its own result changes nothing. *)
Theorem camel2word_result_is_lowercase (s r : string) :
  camel2word s = Ok r ->
  all_chars (fun c => negb (PyStr.is_upper c))
            (PyStr.slice (Some 1%Z) None r) = true
  /\ (String.length s <= String.length r)%nat
  /\ (all_chars (fun c => negb (PyStr.is_upper c))
                (PyStr.slice (Some 1%Z) None s) = true -> r = s)
  /\ camel2word r = Ok r.
Proof.
  destruct s as [|c rest]; [now rewrite camel2word_empty|].
  rewrite camel2word_cons. intros [= <-].
  rewrite !slice_tail, camel2word_cons.
  pose proof (spaced_lowercase_no_upper rest) as L.
  split; [exact L|]. split; [|split].
  - pose proof (spaced_lowercase_size rest). simpl. lia.
  - intros H. now rewrite spaced_lowercase_fixed.
  - now rewrite (spaced_lowercase_fixed _ L).
Qed.

Lemma camel2word_result_is_lowercase_witness :
  all_chars (fun c => negb (PyStr.is_upper c))
            (PyStr.slice (Some 1%Z) None "Case with spec") = true
  /\ camel2word "Case with spec" = Ok "Case with spec".
Proof.
  destruct (camel2word_result_is_lowercase "CaseWithSpec" "Case with spec"
              eq_refl) as (H1 & _ & _ & H4).
  split; [exact H1 | exact H4].
Defined.

(** ** Scanning for a pattern *)

Section ReplaceScan.

Import PyStr.

Variables old new : string.
Hypothesis old_not_empty : old <> "".

(** Induction along the scan of [replace]: at each position either the
    pattern is met and skipped, or one character is copied. *)
Lemma replace_scan_ind (P : string -> Prop) :
  P "" ->
  (forall rest, P rest -> P (old ++ rest)) ->
  (forall c s, starts_with old (String c s) = false -> P s -> P (String c s)) ->
  forall s, P s.
Proof.
  intros Hnil Hhit Hmiss s.
  remember (String.length s) as n eqn:Hn. revert s Hn.
  induction n as [n IH] using lt_wf_ind. intros [|c s] Hn; [exact Hnil|].
  destruct (starts_with old (String c s)) eqn:E.
  - rewrite (starts_with_split _ _ E). apply Hhit.
    eapply IH; [|reflexivity]. subst n. rewrite str_drop_size.
    destruct old; [contradiction|]. simpl. lia.
  - apply Hmiss; [exact E|]. eapply IH; [|reflexivity]. subst n. simpl. lia.
Qed.

Lemma contains_char_app (c : ascii) (a b : string) :
  contains_char c (a ++ b) = contains_char c a || contains_char c b.
Proof.
  induction a as [|x a IH]; [reflexivity|].
  rewrite app_cons. cbn [contains_char]. now destruct (Ascii.eqb x c).
Qed.

Lemma erase_char_app (c : ascii) (a b : string) :
  erase_char c (a ++ b) = erase_char c a ++ erase_char c b.
Proof.
  induction a as [|x a IH]; [reflexivity|].
  rewrite app_cons. cbn [erase_char]. destruct (Ascii.eqb x c); [exact IH|].
  rewrite app_cons. now rewrite IH.
Qed.

(** A character that neither the text nor [new] has is not in the
    result. *)
Lemma replace_keeps_absent (c : ascii) (s : string) :
  contains_char c new = false ->
  contains_char c s = false ->
  contains_char c (replace old new s) = false.
Proof.
  intros Hnew. induction s as [|rest IH|x s E IH] using replace_scan_ind.
  - now rewrite replace_nothing.
  - intros H. rewrite contains_char_app in H.
    apply orb_false_iff in H as [_ H].
    rewrite replace_hit, contains_char_app, Hnew by assumption. now apply IH.
  - intros H. rewrite replace_miss by assumption.
    cbn [contains_char] in H |- *. destruct (Ascii.eqb x c); [discriminate|].
    now apply IH.
Qed.

(** When [new] is [old] with some [c] put in, the result is the text
    with some [c] put in. *)
Lemma replace_erase (c : ascii) (s : string) :
  erase_char c new = erase_char c old ->
  erase_char c (replace old new s) = erase_char c s.
Proof.
  intros Hnew. induction s as [|rest IH|x s E IH] using replace_scan_ind.
  - now rewrite replace_nothing.
  - rewrite replace_hit by assumption.
    now rewrite !erase_char_app, Hnew, IH.
  - rewrite replace_miss by assumption.
    cbn [erase_char]. now rewrite IH.
Qed.

Lemma replace_not_shorter (s : string) :
  (String.length old <= String.length new)%nat ->
  (String.length s <= String.length (replace old new s))%nat.
Proof.
  intros Hlen. induction s as [|rest IH|x s E IH] using replace_scan_ind.
  - now rewrite replace_nothing.
  - rewrite replace_hit by assumption.
    rewrite !app_size. lia.
  - rewrite replace_miss by assumption. simpl. lia.
Qed.

(** A text without the first character of [old] is left alone. *)
Lemma replace_without_first (c : ascii) (p s : string) :
  old = String c p ->
  contains_char c s = false ->
  replace old new s = s.
Proof.
  intros Hold. induction s as [|rest IH|x s E IH] using replace_scan_ind.
  - intros _. now rewrite replace_nothing.
  - intros H. rewrite Hold, app_cons in H. cbn [contains_char] in H.
    now rewrite Ascii.eqb_refl in H.
  - intros H. rewrite replace_miss by assumption.
    cbn [contains_char] in H. destruct (Ascii.eqb x c); [discriminate|].
    now rewrite IH.
Qed.

End ReplaceScan.

(** ** Underscored names, continued *)

Lemma map_chars_size (f : ascii -> ascii) (s : string) :
  String.length (PyStr.map_chars f s) = String.length s.
Proof. induction s as [|c s IH]; simpl; auto. Qed.

Lemma spaces_for_underscores_clean (s : string) :
  PyStr.contains_char "_" (Prose.spaces_for_underscores s) = false.
Proof.
  unfold Prose.spaces_for_underscores.
  induction s as [|c s IH]; [reflexivity|].
  cbn [PyStr.map_chars PyStr.contains_char]. rewrite IH.
  destruct (Ascii.eqb_spec c "_"%char) as [->|N]; [reflexivity|].
  now destruct (Ascii.eqb_spec c "_"%char).
Qed.

Lemma spaces_for_underscores_fixed (s : string) :
  PyStr.contains_char "_" s = false ->
  Prose.spaces_for_underscores s = s.
Proof.
  unfold Prose.spaces_for_underscores.
  induction s as [|c s IH]; [reflexivity|].
  cbn [PyStr.map_chars PyStr.contains_char].
  destruct (Ascii.eqb c "_"%char); [discriminate|].
  intros H. now rewrite IH.
Qed.

(** X5.  [underscore2word] keeps the length of the string, leaves no
    underscore in it, does not touch a string that has none, and so is
    idempotent. *)
Theorem underscore2word_clears_underscores :
  (forall s, String.length (underscore2word s) = String.length s)
  /\ (forall s, PyStr.contains_char "_" (underscore2word s) = false)
  /\ (forall s, PyStr.contains_char "_" s = false -> underscore2word s = s)
  /\ (forall s, underscore2word (underscore2word s) = underscore2word s).
Proof.
  split; [|split; [|split]]; intros s; rewrite ?underscore2word_prose.
  - apply map_chars_size.
  - apply spaces_for_underscores_clean.
  - apply spaces_for_underscores_fixed.
  - apply spaces_for_underscores_fixed, spaces_for_underscores_clean.
Qed.

Lemma underscore2word_clears_underscores_witness :
  underscore2word "is a singleton" = "is a singleton".
Proof.
  apply (proj1 (proj2 (proj2 underscore2word_clears_underscores))).
  reflexivity.
Defined.

(** A character that is in none of the four contractions and not in the
    string is not in the result. *)
Lemma complete_english_keeps_absent (c : ascii) (s : string) :
  Forall (fun xy => PyStr.contains_char c (snd xy) = false) contractions ->
  PyStr.contains_char c s = false ->
  PyStr.contains_char c (complete_english s) = false.
Proof.
  unfold contractions. intros H Hs.
  inversion_clear H as [|? ? H1 Ha]. inversion_clear Ha as [|? ? H2 Hb].
  inversion_clear Hb as [|? ? H3 Hc]. inversion_clear Hc as [|? ? H4 _].
  cbn [snd] in *.
  rewrite complete_english_prose. unfold Prose.contracted.
  repeat (apply replace_keeps_absent; [discriminate | assumption |]).
  exact Hs.
Qed.

(** X6.  [complete_english] only puts apostrophes in: with the
    apostrophes deleted, its result is the string it was given with the
    apostrophes deleted, so it never shortens the string; and a string
    with neither a 'd' nor a 'w', the letters the four patterns begin
    with, comes back unchanged. *)
Theorem complete_english_only_adds_apostrophes :
  (forall s, erase_char "'" (complete_english s) = erase_char "'" s)
  /\ (forall s, (String.length s <= String.length (complete_english s))%nat)
  /\ (forall s,
        PyStr.contains_char "d" s = false ->
        PyStr.contains_char "w" s = false ->
        complete_english s = s).
Proof.
  split; [|split]; intros s; rewrite complete_english_prose;
    unfold Prose.contracted.
  - now rewrite !replace_erase by (discriminate || reflexivity).
  - etransitivity; [|apply replace_not_shorter; [discriminate | simpl; lia]].
    etransitivity; [|apply replace_not_shorter; [discriminate | simpl; lia]].
    etransitivity; [|apply replace_not_shorter; [discriminate | simpl; lia]].
    apply replace_not_shorter; [discriminate | simpl; lia].
  - intros Hd Hw.
    rewrite (replace_without_first "dont" "don't" ltac:(discriminate)
               "d"%char "ont" s eq_refl Hd).
    rewrite (replace_without_first "doesnt" "doesn't" ltac:(discriminate)
               "d"%char "oesnt" s eq_refl Hd).
    rewrite (replace_without_first "wont" "won't" ltac:(discriminate)
               "w"%char "ont" s eq_refl Hw).
    apply (replace_without_first "wasnt" "wasn't" ltac:(discriminate)
             "w"%char "asnt" s eq_refl Hw).
Qed.

Lemma complete_english_only_adds_apostrophes_witness :
  complete_english "is a singleton" = "is a singleton".
Proof.
  apply (proj2 (proj2 complete_english_only_adds_apostrophes));
    reflexivity.
Defined.

(** X7.  The specification [underscored2spec] makes of a name never has
    an underscore in it. *)
Theorem underscored2spec_has_no_underscore (name : string) :
  PyStr.contains_char "_" (underscored2spec name) = false.
Proof.
  unfold underscored2spec.
  apply complete_english_keeps_absent.
  - unfold contractions. repeat constructor.
  - rewrite underscore2word_prose. apply spaces_for_underscores_clean.
Qed.

(** ** Descriptions, continued *)

Lemma py_or_truthy (d : string) (y : result string) :
  d <> "" -> py_or (Some d) y = Ok d.
Proof. intros H. destruct d; [contradiction | reflexivity]. Qed.

(** X8.  A docstring overrides the generated name: a module, function or
    class with a non-empty documentation is described by it, and so is a
    nose method test, a nose function test that no generator yielded, and
    a unittest method.  A test yielded by a generator is the exception:
    its docstring is not looked at, its [description] attribute or its
    arguments are: whatever the attribute holds is the description, and
    without the attribute what [str] of an argument raises is raised. *)
Theorem docstring_overrides_generated_name :
  (forall ctx d,
      inspect_getdoc ctx = Some d -> d <> "" ->
      contextDescription ctx = Some (Ok d))
  /\ (forall n doc m ctx d,
        func_getdoc m = Some d -> d <> "" ->
        testDescription
          {| test := PyTestCase n doc (MethodTestCase m); context := ctx |}
        = Some (Ok (SpecStr d)))
  /\ (forall n doc f arg ctx d,
        func_doc f = Some d -> d <> "" ->
        testDescription
          {| test := PyTestCase n doc (FunctionTestCase f None arg);
             context := ctx |}
        = Some (Ok (SpecStr d)))
  /\ (forall n ctx d,
        d <> "" ->
        testDescription
          {| test := PyTestCase n (Some d) PlainTestCase; context := ctx |}
        = Some (Ok (SpecStr d)))
  /\ (forall n doc f g arg ctx,
        testDescription
          {| test := PyTestCase n doc (FunctionTestCase f (Some g) arg);
             context := ctx |}
        = Some (match description f with
                | Some (AttrStr text) => Ok (SpecStr text)
                | Some AttrNone => Ok SpecNone
                | Some (AttrObject v) => Ok (SpecObject v)
                | None =>
                    result_map
                      (fun strs =>
                         SpecStr ("holds for " ++ PyStr.join ", " strs))
                      (result_all (map py_str arg))
                end)).
Proof.
  split; [|split; [|split; [|split]]].
  - intros ctx d Hdoc Hd. destruct d as [|c d]; [contradiction|].
    destruct ctx as [|o|f|o|o|n doc k|cls|cn]; simpl in Hdoc;
      try discriminate; unfold contextDescription; simpl;
      unfold underscoredDescription, camelcaseDescription; simpl;
      now rewrite Hdoc.
  - intros n doc m ctx d Hdoc Hd. destruct d as [|c d]; [contradiction|].
    unfold testDescription. simpl. now rewrite Hdoc.
  - intros n doc f arg ctx d Hdoc Hd. destruct d as [|c d]; [contradiction|].
    unfold testDescription. simpl. now rewrite Hdoc.
  - intros n ctx d Hd. destruct d as [|c d]; [contradiction|]. reflexivity.
  - intros n doc f g arg ctx. unfold testDescription. simpl.
    now destruct (description f) as [[| |]|].
Qed.

Lemma docstring_overrides_generated_name_witness :
  contextDescription
    (PyModule {| obj_id := 3; __name__ := "test_containers";
                 getdoc := Some "Containers of the library" |})
  = Some (Ok "Containers of the library")
  /\ testDescription
       {| test := PyTestCase "test_add" (Some "adds two numbers")
                    PlainTestCase;
          context := PyNone |}
     = Some (Ok (SpecStr "adds two numbers")).
Proof.
  split.
  - apply (proj1 docstring_overrides_generated_name);
      [reflexivity | discriminate].
  - apply (proj1 (proj2 (proj2 (proj2 docstring_overrides_generated_name)))).
    discriminate.
Defined.

Lemma strip_Test_empty (name : string) :
  remove_leading_and_trailing "Test" name = ""
  <-> name = "" \/ name = "Test" \/ name = "TestTest".
Proof.
  split.
  - unfold remove_leading_and_trailing.
    rewrite remove_leading_prose, remove_trailing_prose. intros H.
    apply without_prefix_empty in H.
    destruct (without_suffix_inv "Test" name) as [E|E];
      destruct H as [H|H]; rewrite H in E; auto.
  - intros [->|[->| ->]]; reflexivity.
Qed.

Lemma camelcase2spec_raises (name : string) (e : exn) :
  camelcase2spec name = Raise e
  <-> e = IndexError /\ remove_leading_and_trailing "Test" name = "".
Proof.
  unfold camelcase2spec.
  destruct (remove_leading_and_trailing "Test" name) as [|c rest].
  - rewrite camel2word_empty. split; [intros [= <-]; auto | now intros [-> _]].
  - rewrite camel2word_cons. split; [discriminate | intros [_ H]; discriminate].
Qed.

Lemma py_or_Raise (x : option string) (y : result string) (e : exn) :
  py_or x y = Raise e <-> truthy_opt x = false /\ y = Raise e.
Proof.
  destruct x as [[|c s]|]; simpl; split; try tauto; try discriminate;
    now intros [? ?].
Qed.

(** X9.  Describing a context raises in one situation only, and then
    with [IndexError]: the context is a class, old or new style, without
    documentation, whose name is '', 'Test' or 'TestTest'.  The description
    is [None] exactly for an object that is no module, function, doctest
    case or class. *)
Theorem contextDescription_raises_only_for_empty_class_name :
  (forall ctx e,
      contextDescription ctx = Some (Raise e)
      <-> e = IndexError
          /\ exists o,
               (ctx = PyClassObj o \/ ctx = PyNewClass o)
               /\ truthy_opt (getdoc o) = false
               /\ (__name__ o = "" \/ __name__ o = "Test"
                   \/ __name__ o = "TestTest"))
  /\ (forall ctx,
        contextDescription ctx = None
        <-> isinstance ctx types_ModuleType = false
            /\ isinstance ctx types_FunctionType = false
            /\ isinstance ctx doctest_DocTestCase = false
            /\ isinstance ctx types_ClassType = false
            /\ isinstance ctx builtin_type = false).
Proof.
  split.
  - intros ctx e.
    assert (forall o,
               camelcaseDescription (PyNewClass o) = Raise e
               <-> e = IndexError /\ truthy_opt (getdoc o) = false
                   /\ (__name__ o = "" \/ __name__ o = "Test"
                       \/ __name__ o = "TestTest")) as Hnew.
    { intros o. unfold camelcaseDescription. simpl.
      rewrite py_or_Raise, camelcase2spec_raises, strip_Test_empty. tauto. }
    assert (forall x n, py_or x (result_map (fun n => PyStr.capitalize
                                               (underscored2spec n)) (Ok n))
                        <> Raise e) as Hund.
    { intros x n H. apply py_or_Raise in H as [_ H]. discriminate H. }
    destruct ctx as [|o|f|o|o|n doc [m|f ds a|dt|]|[| |ecn]|cn];
      unfold contextDescription; simpl;
      try (split; [discriminate | intros (_ & o' & [H|H] & _); discriminate H]).
    + split; [intros [= H]; now apply Hund in H
             | intros (_ & o' & [H|H] & _); discriminate H].
    + split; [intros [= H]; now apply Hund in H
             | intros (_ & o' & [H|H] & _); discriminate H].
    + change (camelcaseDescription (PyClassObj o))
        with (camelcaseDescription (PyNewClass o)).
      split.
      * intros [= H]. apply Hnew in H as (-> & Hd & Hn). eauto 6.
      * intros (-> & o' & [[= <-]|H] & Hd & Hn); [|discriminate H].
        f_equal. apply Hnew. auto.
    + split.
      * intros [= H]. apply Hnew in H as (-> & Hd & Hn). eauto 6.
      * intros (-> & o' & [H|[= <-]] & Hd & Hn); [discriminate H|].
        f_equal. apply Hnew. auto.
  - intros ctx.
    destruct ctx as [|o|f|o|o|n doc [m|f ds a|dt|]|[]|cn];
      unfold contextDescription; simpl; split;
      solve [ auto | discriminate
            | intros (H1 & H2 & H3 & H4 & H5); discriminate ].
Qed.

Lemma contextDescription_raises_only_for_empty_class_name_witness :
  contextDescription
    (PyNewClass {| obj_id := 0; __name__ := "TestTest"; getdoc := None |})
  = Some (Raise IndexError)
  /\ contextDescription (PyOther "object") = None.
Proof.
  split.
  - apply (proj1 contextDescription_raises_only_for_empty_class_name).
    split; [reflexivity|]. eexists. split; [right; reflexivity|].
    split; [reflexivity|]. right. right. reflexivity.
  - apply (proj2 contextDescription_raises_only_for_empty_class_name).
    repeat split.
Defined.

(** ** Doctest examples *)

Lemma rsplit1_None (c : ascii) (s : string) :
  PyStr.rsplit1 c s = None <-> PyStr.contains_char c s = false.
Proof.
  induction s as [|x s IH]; [easy|].
  cbn [PyStr.rsplit1 PyStr.contains_char].
  destruct (PyStr.rsplit1 c s) as [[a b]|].
  - destruct (Ascii.eqb x c); [easy|]. split; [discriminate|].
    intros H. apply IH in H. discriminate H.
  - destruct (Ascii.eqb x c); [easy|]. split; [intros _; now apply IH | easy].
Qed.

Lemma rsplit1_Some (c : ascii) (s a b : string) :
  PyStr.rsplit1 c s = Some (a, b) -> s = a ++ String c b.
Proof.
  revert a. induction s as [|x s IH]; intros a; [discriminate|].
  cbn [PyStr.rsplit1].
  destruct (PyStr.rsplit1 c s) as [[a' b']|].
  - intros [= <- <-]. rewrite app_cons. f_equal. now apply IH.
  - destruct (Ascii.eqb_spec x c) as [->|]; [|discriminate].
    now intros [= <- <-].
Qed.

Lemma rsplit1_at_end (c : ascii) (a : string) :
  PyStr.rsplit1 c (a ++ String c "") = Some (a, "").
Proof.
  induction a as [|x a IH].
  - rewrite app_nil. simpl. now rewrite Ascii.eqb_refl.
  - rewrite app_cons. cbn [PyStr.rsplit1]. now rewrite IH.
Qed.

Lemma omap_size {A B : Type} (f : A -> option B) (l : list A) :
  (length (omap f l) <= length l)%nat.
Proof.
  induction l as [|x l IH]; [reflexivity|].
  change (omap f (x :: l))
    with (match f x with Some y => y :: omap f l | None => omap f l end).
  destruct (f x); simpl; lia.
Qed.

Lemma replace_char_map (a b : ascii) (s : string) :
  PyStr.replace (String a "") (String b "") s
  = PyStr.map_chars (fun c => if Ascii.eqb c a then b else c) s.
Proof.
  induction s as [|c s IH]; [reflexivity|].
  destruct (Ascii.eqb_spec c a) as [->|N].
  - change (String a s) with (String a "" ++ s).
    rewrite replace_hit by discriminate.
    rewrite IH, !app_cons, !app_nil. cbn [PyStr.map_chars].
    now rewrite Ascii.eqb_refl.
  - rewrite replace_miss; [|discriminate|].
    + rewrite IH. cbn [PyStr.map_chars].
      destruct (Ascii.eqb_spec c a); [contradiction | reflexivity].
    + cbn [PyStr.starts_with].
      destruct (Ascii.eqb_spec a c) as [E|]; [|reflexivity].
      now destruct N.
Qed.

Lemma map_chars_app (f : ascii -> ascii) (a b : string) :
  PyStr.map_chars f (a ++ b) = PyStr.map_chars f a ++ PyStr.map_chars f b.
Proof.
  induction a as [|x a IH]; [reflexivity|].
  rewrite app_cons. cbn [PyStr.map_chars]. rewrite app_cons. now rewrite IH.
Qed.

(** Replacing newlines by spaces neither adds nor removes a '#'. *)
Lemma newlines_to_spaces_keep_hash (s : string) :
  PyStr.contains_char "#" (PyStr.replace newline " " s)
  = PyStr.contains_char "#" s.
Proof.
  unfold newline. rewrite (replace_char_map PyStr.LF " "%char).
  induction s as [|c s IH]; [reflexivity|].
  cbn [PyStr.map_chars PyStr.contains_char]. rewrite IH.
  destruct (Ascii.eqb_spec c PyStr.LF) as [->|]; reflexivity.
Qed.

Lemma ends_differently (a b : string) (x y : ascii) :
  x <> y -> a ++ String x "" <> b ++ String y "".
Proof.
  intros N H. apply (f_equal Prose.reversed) in H.
  rewrite !reversed_app in H. simpl in H. injection H as H _.
  contradiction.
Qed.

(** X10.  A doctest example yields no specification in two situations
    only: its source, newlines replaced by spaces, has no '#' and the
    example has neither an exception message nor a wanted output; or that
    source ends with '#'.  The source of an example ends with a newline,
    and then the second situation cannot arise: the example yields a
    specification exactly when it has a comment, an exception message or
    a wanted output.  So a doctest case yields at most one specification
    per example. *)
Theorem doctest_example_without_specification :
  (forall ex,
      example_spec ex = None
      <-> let src := PyStr.replace newline " " (source ex) in
          (PyStr.contains_char "#" src = false
           /\ truthy_opt (exc_msg ex) = false
           /\ want ex = "")
          \/ (exists before, src = before ++ "#"))
  /\ (forall ex body,
        source ex = body ++ newline ->
        (example_spec ex = None
         <-> PyStr.contains_char "#" (source ex) = false
             /\ truthy_opt (exc_msg ex) = false
             /\ want ex = ""))
  /\ (forall n doc dt items,
        doctestExamplesDescription (PyTestCase n doc (DocTestCase dt))
        = Ok (SpecGen items) ->
        (length items <= length (examples dt))%nat).
Proof.
  assert (forall ex,
      example_spec ex = None
      <-> (PyStr.contains_char "#" (PyStr.replace newline " " (source ex))
           = false
           /\ truthy_opt (exc_msg ex) = false
           /\ want ex = "")
          \/ (exists before,
                PyStr.replace newline " " (source ex) = before ++ "#")) as G.
  { intros ex. unfold example_spec.
    set (src := PyStr.replace newline " " (source ex)).
    destruct (PyStr.contains_char "#" src) eqn:Hc.
    + destruct (PyStr.rsplit1 "#" src) as [[before after]|] eqn:Hr.
      * pose proof (rsplit1_Some _ _ _ _ Hr) as Hs.
        destruct after as [|c after]; cbn [PyStr.truthy]; split.
        -- intros _. right. now exists before.
        -- reflexivity.
        -- discriminate.
        -- intros [(H & _)|[b Hb]]; [discriminate H|].
           rewrite Hb, rsplit1_at_end in Hr. discriminate Hr.
      * apply rsplit1_None in Hr. rewrite Hr in Hc. discriminate Hc.
    + destruct (truthy_opt (exc_msg ex)) eqn:He.
      * split; [discriminate|].
        intros [(_ & H & _)|[b Hb]]; [discriminate H|].
        rewrite Hb, contains_char_app in Hc. simpl in Hc.
        now rewrite orb_true_r in Hc.
      * destruct (want ex) as [|c w] eqn:Hw; cbn [PyStr.truthy].
        -- split; [intros _; left; auto | reflexivity].
        -- split; [discriminate|].
           intros [(_ & _ & H)|[b Hb]]; [discriminate H|].
           rewrite Hb, contains_char_app in Hc. simpl in Hc.
           now rewrite orb_true_r in Hc. }
  split; [exact G|]. split.
  - intros ex body Hsrc. rewrite G, newlines_to_spaces_keep_hash.
    split; [|auto]. intros [H|[before H]]; [exact H|]. exfalso.
    rewrite Hsrc in H. unfold newline in H.
    rewrite (replace_char_map PyStr.LF " "%char), map_chars_app in H.
    cbn [PyStr.map_chars] in H. rewrite Ascii.eqb_refl in H.
    revert H. now apply ends_differently.
  - intros n doc dt items [= <-]. apply omap_size.
Qed.

Lemma doctest_example_without_specification_witness :
  (example_spec {| source := "None" ++ newline; want := "";
                   exc_msg := None |} = None
   <-> PyStr.contains_char "#" ("None" ++ newline) = false
       /\ truthy_opt None = false
       /\ "" = "")
  /\ (length (omap example_spec
                  [ {| source := "None" ++ newline; want := "";
                       exc_msg := None |} ])
      <= 1)%nat.
Proof.
  split.
  - apply (proj1 (proj2 doctest_example_without_specification)
             {| source := "None" ++ newline; want := ""; exc_msg := None |}
             "None").
    reflexivity.
  - apply (proj2 (proj2 doctest_example_without_specification)
             "runTest" None
             {| name := "m";
                examples := [ {| source := "None" ++ newline; want := "";
                                 exc_msg := None |} ] |}).
    reflexivity.
Defined.

(** ** Dispatch, continued *)

Lemma result_all_raises {A : Type} (rs : list (result A)) (e : exn) :
  result_all rs = Raise e
  <-> exists before after,
        rs = (map Ok before ++ Raise e :: after)%list.
Proof.
  split.
  - revert e. induction rs as [|[a|x] rs IH]; intros e; simpl;
      [discriminate| |].
    + destruct (result_all rs) as [l|y] eqn:R; simpl; [discriminate|].
      intros [= <-]. destruct (IH y eq_refl) as (before & after & ->).
      now exists (a :: before), after.
    + intros [= <-]. now exists [], rs.
  - intros (before & after & ->).
    induction before as [|a before IH]; simpl; [reflexivity|].
    now rewrite IH.
Qed.

Lemma testDescription_None (t : Test) :
  testDescription t = None <-> isinstance (test t) unittest_TestCase = false.
Proof.
  destruct t as [[| | | | |n d [m|f ds a|dt|]|[]|] ctx];
    unfold testDescription; simpl; split; try discriminate; reflexivity.
Qed.

Lemma testDescription_SpecNone (t : Test) :
  testDescription t = Some (Ok SpecNone)
  <-> exists n doc f g arg,
        test t = PyTestCase n doc (FunctionTestCase f (Some g) arg)
        /\ description f = Some AttrNone.
Proof.
  split.
  - destruct t as [[| | | | |n d [m|f ds a|dt|]|[]|] ctx];
      unfold testDescription; simpl; try discriminate.
    + destruct (py_or_Ok (func_getdoc m) (underscored2spec (func_name m)))
        as [s ->]. discriminate.
    + destruct ds as [g|].
      * destruct (description f) as [[| |w]|] eqn:D; try discriminate.
        -- intros _. exists n, d, f, g, a. auto.
        -- destruct (result_all (map py_str a)); discriminate.
      * destruct (py_or_Ok (func_doc f) (underscored2spec (func_name f)))
          as [s ->]. discriminate.
    + destruct (py_or_Ok d (underscored2spec n)) as [s ->]. discriminate.
  - intros (n & doc & f & g & arg & Ht & D).
    destruct t as [tt ctx]. simpl in Ht. subst tt.
    unfold testDescription. simpl. now rewrite D.
Qed.

(** X11.  A test description raises in one situation only: the test was
    yielded by a generator, has no [description] attribute, and [str] of
    one of its arguments raises; the exception is the one raised for the
    first such argument.  The description functions themselves never fail:
    the dispatch table hands each of them an object that has the
    attributes it reads.  The description is [None] for an object that is
    not a [unittest.TestCase], which no entry of the table matches, and
    for a test yielded by a generator whose [description] attribute holds
    [None], and for no other test; it is an object that is neither a
    string nor a generator only when the [description] attribute of a
    test yielded by a generator holds that object. *)
Theorem testDescription_raises_only_from_str (t : Test) :
  (forall e,
      testDescription t = Some (Raise e)
      <-> exists n doc f g arg before after,
            test t = PyTestCase n doc (FunctionTestCase f (Some g) arg)
            /\ description f = None
            /\ map py_str arg = (map Ok before ++ Raise e :: after)%list)
  /\ (testDescription t = None \/ testDescription t = Some (Ok SpecNone)
      <-> isinstance (test t) unittest_TestCase = false
          \/ exists n doc f g arg,
               test t = PyTestCase n doc (FunctionTestCase f (Some g) arg)
               /\ description f = Some AttrNone)
  /\ (forall v,
        testDescription t = Some (Ok (SpecObject v))
        <-> exists n doc f g arg,
              test t = PyTestCase n doc (FunctionTestCase f (Some g) arg)
              /\ description f = Some (AttrObject v)).
Proof.
  split; [|split].
  - intros e. rewrite testDescription_raises. split.
    + intros (n & doc & f & g & arg & Ht & D & R).
      apply result_all_raises in R as (before & after & R).
      exists n, doc, f, g, arg, before, after. auto.
    + intros (n & doc & f & g & arg & before & after & Ht & D & R).
      exists n, doc, f, g, arg. repeat split; auto.
      apply result_all_raises. eauto.
  - now rewrite testDescription_None, testDescription_SpecNone.
  - apply testDescription_object.
Qed.

Lemma testDescription_raises_only_from_str_witness :
  testDescription
    {| test := PyTestCase "runTest" None
                 (FunctionTestCase
                    {| func_id := 1; func_name := "check_even";
                       func_doc := None; func_getdoc := None;
                       description := None |}
                    (Some {| func_id := 2; func_name := "test_evens";
                             func_doc := None; func_getdoc := None;
                             description := None |})
                    [ str_value "2";
                      {| py_bool := Ok true;
                         py_str := Raise (ForeignError "ValueError");
                         py_format := Raise (ForeignError "ValueError") |} ]);
       context := PyNone |}
  = Some (Raise (ForeignError "ValueError")).
Proof.
  apply (proj2 (proj1 (testDescription_raises_only_from_str _) _)).
  do 5 eexists. exists ["2"], []. repeat split.
Defined.

(** ** Headings, continued *)

(** X13.  The heading of a context of no supported type is the word
    "None": [print_context] formats the [None] that [contextDescription]
    returns, and [beforeTest] prints it when such a context differs from
    the stored one. *)
Theorem unsupported_context_heading_is_None :
  (forall ctx s,
      contextDescription ctx = None ->
      SpecOutputStream.print_context ctx s
      = (Ok tt,
         SpecOutputStream.print_text (newline ++ "None" ++ newline) s))
  /\ (forall t p,
        contextDescription (testContext t) = None ->
        testContext t <> current_context p ->
        exists p',
          beforeTest t p = (Ok tt, p')
          /\ OutputStream.on_stream (stream p')
             = (OutputStream.on_stream (stream p)
                ++ [(newline ++ "None" ++ newline)%string])%list
          /\ current_context p' = testContext t).
Proof.
  split.
  - intros ctx s H.
    unfold SpecOutputStream.print_context, bind, lift_result.
    now rewrite H.
  - intros t p H N.
    assert (doctest_hidden p (testContext t) = false) as Hshown.
    { unfold doctest_hidden. unfold contextDescription in H.
      apply dispatch_None_inv in H. unfold supported_context_types in H.
      inversion_clear H as [|? ? _ H1]. inversion_clear H1 as [|? ? _ H2].
      inversion_clear H2 as [|? ? H3 _]. unfold passes_over in H3.
      simpl in H3. now rewrite H3. }
    eexists. split.
    + apply (beforeTest_new_context t p None N Hshown). now rewrite H.
    + split; reflexivity.
Qed.

Lemma unsupported_context_heading_is_None_witness :
  exists p',
    beforeTest {| test := PyTestCase "test_x" None PlainTestCase;
                  context := PyOther "instance" |} Samples.plugin
    = (Ok tt, p')
    /\ OutputStream.on_stream (stream p') = [newline ++ "None" ++ newline]
    /\ current_context p' = PyOther "instance".
Proof.
  apply (proj2 unsupported_context_heading_is_None
           {| test := PyTestCase "test_x" None PlainTestCase;
              context := PyOther "instance" |} Samples.plugin).
  - reflexivity.
  - discriminate.
Defined.

(** ** Colors, continued *)

Lemma splitlines_nonempty (text : string) :
  text <> "" -> PyStr.splitlines_keepends text <> [].
Proof.
  intros N H. apply N. rewrite <- (splitlines_keepends_join text).
  now rewrite H.
Qed.

Lemma colors_missing (color : string) :
  colors !! color = None
  <-> color <> "green" /\ color <> "red" /\ color <> "yellow".
Proof.
  unfold colors.
  rewrite !lookup_insert_None, lookup_singleton_None.
  split; [intros ((H3 & H2) & H1) | intros (H1 & H2 & H3)];
    repeat split; congruence.
Qed.

(** X14.  [in_color] looks the color up once per line: on the empty text
    it returns the empty text for every color name, known or not; on any
    other text a name that is not 'green', 'red' or 'yellow' raises
    [KeyError], and these three never do. *)
Theorem in_color_unknown_color :
  (forall color, in_color color "" = Ok "")
  /\ (forall color text,
        color <> "green" -> color <> "red" -> color <> "yellow" ->
        text <> "" ->
        in_color color text = Raise (KeyError color))
  /\ (forall color text,
        color = "green" \/ color = "red" \/ color = "yellow" ->
        exists colored, in_color color text = Ok colored).
Proof.
  split; [reflexivity|]. split.
  - intros color text H1 H2 H3 Ht. unfold in_color.
    destruct (PyStr.splitlines_keepends text) as [|line rest] eqn:E;
      [now apply splitlines_nonempty in E|].
    cbn [in_color_lines]. unfold colors_getitem.
    now rewrite (proj2 (colors_missing color)).
  - intros color text [->|[->| ->]]; eexists;
      apply in_color_lines_wrapped; reflexivity.
Qed.

Lemma in_color_unknown_color_witness :
  in_color "blue" "- works" = Raise (KeyError "blue")
  /\ exists colored, in_color "green" "- works" = Ok colored.
Proof.
  split.
  - apply (proj1 (proj2 in_color_unknown_color));
      intros H; discriminate H.
  - apply (proj2 (proj2 in_color_unknown_color)). now left.
Defined.

(** ** The capture stream *)

Lemma StringIO_write_at_end (text : string) (f : StringIO.t) :
  at_end f ->
  StringIO.buf (StringIO.write text f) = StringIO.buf f ++ text
  /\ at_end (StringIO.write text f).
Proof.
  unfold at_end, StringIO.write. intros H.
  rewrite H, Nat.eqb_refl. simpl. split; [reflexivity|].
  now rewrite app_size.
Qed.

Lemma StringIO_truncate_at_end (f : StringIO.t) :
  at_end f -> StringIO.truncate f = f.
Proof.
  unfold at_end, StringIO.truncate. intros H. rewrite H, str_take_all.
  destruct f as [b p]. simpl in *. now rewrite H.
Qed.

Lemma StringIO_read_all (f : StringIO.t) :
  fst (StringIO.read (StringIO.seek 0 f)) = StringIO.buf f
  /\ at_end (snd (StringIO.read (StringIO.seek 0 f)))
  /\ StringIO.buf (snd (StringIO.read (StringIO.seek 0 f))) = StringIO.buf f.
Proof. unfold at_end. simpl. auto. Qed.

Lemma write_all_captured (ws : list string) (s : OutputStream.t) :
  OutputStream.stream s = CaptureStream ->
  at_end (OutputStream.capture_stream s) ->
  let s' := write_all ws s in
  StringIO.buf (OutputStream.capture_stream s')
  = StringIO.buf (OutputStream.capture_stream s) ++ PyStr.join "" ws
  /\ at_end (OutputStream.capture_stream s')
  /\ OutputStream.on_stream s' = OutputStream.on_stream s
  /\ OutputStream.off_stream s' = OutputStream.off_stream s
  /\ OutputStream.stream s' = CaptureStream.
Proof.
  revert s. induction ws as [|w ws IH]; intros s Hsel Hend.
  - simpl. now rewrite app_empty_r.
  - cbn [write_all fold_left].
    assert (OutputStream.write w s
            = {| OutputStream.capture_stream :=
                   StringIO.write w (OutputStream.capture_stream s);
                 OutputStream.on_stream := OutputStream.on_stream s;
                 OutputStream.off_stream := OutputStream.off_stream s;
                 OutputStream.stream := CaptureStream |}) as E.
    { unfold OutputStream.write. now rewrite Hsel. }
    destruct (StringIO_write_at_end w _ Hend) as [Hb He].
    fold (write_all ws (OutputStream.write w s)).
    destruct (IH (OutputStream.write w s)) as (H1 & H2 & H3 & H4 & H5);
      [now rewrite E | now rewrite E |].
    cbv zeta in *. split; [|split; [exact H2|]].
    + rewrite H1, E. cbn [OutputStream.capture_stream].
      now rewrite Hb, join_cons, app_assoc_str.
    + rewrite H3, H4, H5, E. auto.
Qed.

(** X15.  What the host writes while the capture stream is selected is
    what [get_captured] returns, after everything captured before:
    [capture] truncates the buffer at its position, which is at the end,
    so it discards nothing.  The host's stream and the discarding stream
    get none of it. *)
Theorem captured_text_round_trip (ws : list string) (s : OutputStream.t) :
  at_end (OutputStream.capture_stream s) ->
  let s' := write_all ws (OutputStream.capture s) in
  fst (OutputStream.get_captured s')
  = StringIO.buf (OutputStream.capture_stream s) ++ PyStr.join "" ws
  /\ at_end (OutputStream.capture_stream (snd (OutputStream.get_captured s')))
  /\ OutputStream.on_stream s' = OutputStream.on_stream s
  /\ OutputStream.off_stream s' = OutputStream.off_stream s.
Proof.
  intros Hend. cbv zeta.
  assert (OutputStream.capture s
          = OutputStream.set_stream CaptureStream s) as E.
  { unfold OutputStream.capture.
    rewrite (StringIO_truncate_at_end _ Hend). now destruct s. }
  rewrite E.
  destruct (write_all_captured ws (OutputStream.set_stream CaptureStream s))
    as (H1 & H2 & H3 & H4 & H5); [reflexivity | exact Hend |].
  cbv zeta in *. cbn [OutputStream.set_stream OutputStream.capture_stream
                      OutputStream.on_stream OutputStream.off_stream]
    in H1, H3, H4.
  unfold OutputStream.get_captured.
  destruct (StringIO_read_all
              (OutputStream.capture_stream
                 (write_all ws (OutputStream.set_stream CaptureStream s))))
    as (R1 & R2 & _).
  destruct (StringIO.read _) as [text f] eqn:Hr.
  cbn [fst snd OutputStream.capture_stream] in *.
  rewrite R1, H1. auto.
Qed.

Lemma captured_text_round_trip_witness :
  fst (OutputStream.get_captured
         (write_all [ "Ran 2 tests"; newline; "OK" ]
                    (OutputStream.capture (OutputStream.init [] []))))
  = "" ++ PyStr.join "" [ "Ran 2 tests"; newline; "OK" ].
Proof.
  apply (captured_text_round_trip [ "Ran 2 tests"; newline; "OK" ]
           (OutputStream.init [] [])).
  reflexivity.
Defined.

(** X16.  [finalize] selects the host's stream and prints there what was
    captured, when there is any, and then a newline; it writes nothing to
    the discarding stream and keeps the current context. *)
Theorem finalize_prints_captured (result : pyobject) (p : Spec) :
  exists p',
    finalize result p = (Ok tt, p')
    /\ selected_stream p' = OnStream
    /\ OutputStream.on_stream (stream p')
       = (OutputStream.on_stream (stream p)
          ++ match fst (OutputStream.get_captured (stream p)) with
             | "" => [newline]
             | text => [text; newline]
             end)%list
    /\ OutputStream.off_stream (stream p')
       = OutputStream.off_stream (stream p)
    /\ current_context p' = current_context p.
Proof.
  eexists. split; [reflexivity|].
  unfold selected_stream. simpl.
  destruct (StringIO.buf (OutputStream.capture_stream (stream p)))
    as [|c text]; unfold OutputStream.writeln, OutputStream.write; simpl;
    repeat split.
  now rewrite <- app_assoc.
Qed.

(** ** The hooks, continued *)




Lemma contextDescription_raise_is_IndexError (ctx : pyobject) (e : exn) :
  commute (contextDescription ctx) = Raise e -> e = IndexError.
Proof.
  destruct ctx as [|o|f|o|o|n doc [m|f ds a|dt|]|[| |ecn]|cn];
    unfold contextDescription; simpl; try discriminate.
  - unfold underscoredDescription. simpl.
    destruct (py_or (getdoc o) _) eqn:E; [discriminate|].
    apply py_or_Raise in E as [_ E]. discriminate E.
  - unfold underscoredDescription. simpl.
    destruct (py_or (func_getdoc f) _) eqn:E; [discriminate|].
    apply py_or_Raise in E as [_ E]. discriminate E.
  - unfold camelcaseDescription. simpl.
    destruct (py_or (getdoc o) _) eqn:E; [discriminate|].
    apply py_or_Raise in E as [_ E]. apply camelcase2spec_raises in E as [-> _].
    now intros [= <-].
  - unfold camelcaseDescription. simpl.
    destruct (py_or (getdoc o) _) eqn:E; [discriminate|].
    apply py_or_Raise in E as [_ E]. apply camelcase2spec_raises in E as [-> _].
    now intros [= <-].
Qed.

(** X18.  When [beforeTest] raises, the exception is [IndexError], the
    context of the test differs from the stored one, and the plugin is as
    it was before the call: no heading printed, the current context not
    replaced, the selected stream not switched. *)
Theorem beforeTest_raises_before_changing (t : Test) (p p' : Spec) (e : exn) :
  beforeTest t p = (Raise e, p') ->
  e = IndexError
  /\ p' = p
  /\ testContext t <> current_context p
  /\ contextDescription (testContext t) = Some (Raise IndexError).
Proof.
  destruct (decide (testContext t = current_context p)) as [E|N].
  - rewrite (beforeTest_same_context t p E). discriminate.
  - destruct (doctest_hidden p (testContext t)) eqn:H.
    + rewrite (beforeTest_hidden_context t p N H). discriminate.
    + destruct (commute (contextDescription (testContext t))) as [d|e'] eqn:Hd.
      * rewrite (beforeTest_new_context t p d N H Hd). discriminate.
      * rewrite (beforeTest_raises t p e' N H Hd). intros [= <- <-].
        pose proof (contextDescription_raise_is_IndexError _ _ Hd) as ->.
        repeat split; [exact N|].
        destruct (contextDescription (testContext t)) as [[s|e]|];
          try discriminate Hd. now injection Hd as ->.
Qed.

Lemma beforeTest_raises_before_changing_witness :
  let t := {| test := PyTestCase "test_x" None PlainTestCase;
              context := PyNewClass {| obj_id := 7; __name__ := "Test";
                                       getdoc := None |} |} in
  IndexError = IndexError
  /\ Samples.plugin = Samples.plugin
  /\ testContext t <> current_context Samples.plugin
  /\ contextDescription (testContext t) = Some (Raise IndexError).
Proof.
  intros t.
  apply (beforeTest_raises_before_changing t Samples.plugin Samples.plugin
           IndexError).
  reflexivity.
Defined.

Lemma beforeTest_sets_context (t : Test) (p p' : Spec) :
  beforeTest t p = (Ok tt, p') -> current_context p' = testContext t.
Proof.
  destruct (decide (testContext t = current_context p)) as [E|N].
  - rewrite (beforeTest_same_context t p E). intros [= <-]. now rewrite E.
  - destruct (doctest_hidden p (testContext t)) eqn:H.
    + rewrite (beforeTest_hidden_context t p N H). now intros [= <-].
    + destruct (commute (contextDescription (testContext t))) as [d|e] eqn:Hd.
      * rewrite (beforeTest_new_context t p d N H Hd). now intros [= <-].
      * rewrite (beforeTest_raises t p e N H Hd). discriminate.
Qed.

Lemma run_events_keep_context (events : list event) (p p' : Spec) :
  run_events events p = (Ok tt, p') ->
  current_context p' = current_context p
  /\ exists lines,
       OutputStream.on_stream (stream p')
       = (OutputStream.on_stream (stream p) ++ lines)%list.
Proof.
  revert p. induction events as [|e events IH]; intros p.
  - intros [= <-]. split; [reflexivity|]. exists []. now rewrite app_nil_r.
  - unfold run_events. cbn [for_each]. unfold bind at 1.
    assert (forall p1,
               run_event e p = (Ok tt, p1) ->
               current_context p1 = current_context p
               /\ exists lines,
                    OutputStream.on_stream (stream p1)
                    = (OutputStream.on_stream (stream p) ++ lines)%list)
      as Hev.
    { assert (forall color code t status,
                 colors !! color = Some code ->
                 forall p1,
                   _print_spec color t status p = (Ok tt, p1) ->
                   current_context p1 = current_context p
                   /\ exists lines,
                        OutputStream.on_stream (stream p1)
                        = (OutputStream.on_stream (stream p) ++ lines)%list)
        as Hook.
      { intros color code t status Hcode p1 H1.
        destruct (_print_spec_outcome color code t status p Hcode)
          as [(lines & p2 & Hrun & _ & _ & Hc & _ & _ & Hon & _)
             |(e0 & Hrun & _)];
          rewrite Hrun in H1; [|discriminate H1].
        injection H1 as <-. eauto. }
      destruct e as [text|t|t err|t err]; simpl run_event.
      - destruct p as [c sd cc [cap on off []]]; intros p1 [= <-];
          (split; [reflexivity|]).
        + now exists [text].
        + exists []. simpl. now rewrite app_nil_r.
        + exists []. simpl. now rewrite app_nil_r.
      - apply (Hook "green" (String "027" "[1;32m")). reflexivity.
      - apply (Hook "red" (String "027" "[1;31m")). reflexivity.
      - rewrite addError_cases.
        destruct (isinstance _ nose_DeprecatedTest);
          [|destruct (isinstance _ nose_SkipTest)].
        + apply (Hook "yellow" (String "027" "[1;33m")). reflexivity.
        + apply (Hook "yellow" (String "027" "[1;33m")). reflexivity.
        + apply (Hook "red" (String "027" "[1;31m")). reflexivity. }
    destruct (run_event e p) as [[[]|ex] p1]; [|discriminate].
    destruct (Hev p1 eq_refl) as (Hc & lines1 & Hon).
    intros H. apply IH in H as (Hc2 & lines2 & Hon2).
    split; [congruence|]. exists (lines1 ++ lines2)%list.
    now rewrite Hon2, Hon, app_assoc.
Qed.

(** X19.  A heading is printed once for consecutive tests of one context:
    after [beforeTest] on a test, whatever outcome hooks and host writes
    follow it and after [afterTest], [beforeTest] on a test of the same
    context prints nothing and keeps the stored context. *)
Theorem heading_once_per_context
    (t1 t2 : Test) (events : list event) (p p1 p2 : Spec) :
  beforeTest t1 p = (Ok tt, p1) ->
  run_events events p1 = (Ok tt, p2) ->
  testContext t2 = testContext t1 ->
  exists p3,
    (afterTest t1 >> beforeTest t2)%py p2 = (Ok tt, p3)
    /\ OutputStream.on_stream (stream p3) = OutputStream.on_stream (stream p2)
    /\ current_context p3 = testContext t1
    /\ selected_stream p3 = OffStream.
Proof.
  intros Hb Hr Hctx.
  apply beforeTest_sets_context in Hb.
  apply run_events_keep_context in Hr as [Hc _].
  unfold bind, afterTest, on_stream_do, modify.
  cbn [stream set_stream].
  rewrite beforeTest_same_context
    by (cbn [current_context set_stream]; congruence).
  eexists. split; [reflexivity|].
  unfold selected_stream. simpl. repeat split. congruence.
Qed.

Lemma heading_once_per_context_witness :
  exists p3,
    (afterTest Samples.singleton_test >>
     beforeTest Samples.singleton_test)%py
      (snd (run_events [ Success Samples.singleton_test ]
              (snd (beforeTest Samples.singleton_test Samples.plugin))))
    = (Ok tt, p3)
    /\ OutputStream.on_stream (stream p3)
       = [newline ++ "Foobar" ++ newline; "- is a singleton" ++ newline]
    /\ current_context p3 = Samples.TestFoobar
    /\ selected_stream p3 = OffStream.
Proof.
  apply (heading_once_per_context Samples.singleton_test
           Samples.singleton_test [ Success Samples.singleton_test ]
           Samples.plugin
           (snd (beforeTest Samples.singleton_test Samples.plugin))
           (snd (run_events [ Success Samples.singleton_test ]
                   (snd (beforeTest Samples.singleton_test Samples.plugin)))));
    reflexivity.
Defined.

(** ** Names of modules and functions *)

Lemma lower_keeps_underscores (s : string) :
  PyStr.contains_char "_" (PyStr.lower s) = PyStr.contains_char "_" s.
Proof.
  assert (forall c, Ascii.eqb (PyStr.lower_char c) "_" = Ascii.eqb c "_") as L
    by (intros [[] [] [] [] [] [] [] []]; reflexivity).
  unfold PyStr.lower. induction s as [|x s IH]; [reflexivity|].
  cbn [PyStr.map_chars PyStr.contains_char]. now rewrite L, IH.
Qed.

Lemma capitalize_keeps_underscores (s : string) :
  PyStr.contains_char "_" (PyStr.capitalize s) = PyStr.contains_char "_" s.
Proof.
  assert (forall c, Ascii.eqb (PyStr.upper_char c) "_" = Ascii.eqb c "_") as U
    by (intros [[] [] [] [] [] [] [] []]; reflexivity).
  destruct s as [|c s]; [reflexivity|].
  cbn [PyStr.capitalize PyStr.contains_char].
  now rewrite U, lower_keeps_underscores.
Qed.

Lemma lower_no_upper (s : string) :
  all_chars (fun c => negb (PyStr.is_upper c)) (PyStr.lower s) = true.
Proof.
  assert (forall c, PyStr.is_upper (PyStr.lower_char c) = false) as L
    by (intros [[] [] [] [] [] [] [] []]; reflexivity).
  unfold PyStr.lower. induction s as [|x s IH]; [reflexivity|].
  cbn [PyStr.map_chars all_chars]. now rewrite L, IH.
Qed.

(** X20.  A module or function without documentation is described by its
    name in prose: the description has no underscore, its first character
    is not a lowercase letter and no later character is an uppercase one,
    so an acronym in the name loses its capitals; describing it never
    raises. *)
Theorem underscoredDescription_of_name (object : pyobject) (n : string) :
  truthy_opt (inspect_getdoc object) = false ->
  attr__name__ object = Ok n ->
  exists text,
    underscoredDescription object = Ok text
    /\ text = PyStr.capitalize (underscored2spec n)
    /\ PyStr.contains_char "_" text = false
    /\ all_chars (fun c => negb (PyStr.is_lower c))
                 (PyStr.slice None (Some 1%Z) text) = true
    /\ all_chars (fun c => negb (PyStr.is_upper c))
                 (PyStr.slice (Some 1%Z) None text) = true.
Proof.
  intros Hdoc Hname. eexists. split.
  - unfold underscoredDescription. rewrite Hname.
    destruct (inspect_getdoc object) as [[|c d]|]; try discriminate Hdoc;
      reflexivity.
  - split; [reflexivity|]. split.
    + rewrite capitalize_keeps_underscores. unfold underscored2spec.
      apply complete_english_keeps_absent.
      * unfold contractions. repeat constructor.
      * rewrite underscore2word_prose. apply spaces_for_underscores_clean.
    + destruct (underscored2spec n) as [|c s]; [split; reflexivity|].
      cbn [PyStr.capitalize]. rewrite slice_tail. split.
      * change 1%Z with (PyStr.len "x"). rewrite slice_upto. simpl.
        rewrite andb_true_r.
        now destruct c as [[] [] [] [] [] [] [] []].
      * apply lower_no_upper.
Qed.

Lemma underscoredDescription_of_name_witness :
  exists text,
    underscoredDescription
      (PyModule {| obj_id := 4; __name__ := "test_HTTP_server";
                   getdoc := None |}) = Ok text
    /\ text = PyStr.capitalize (underscored2spec "test_HTTP_server")
    /\ PyStr.contains_char "_" text = false
    /\ all_chars (fun c => negb (PyStr.is_lower c))
                 (PyStr.slice None (Some 1%Z) text) = true
    /\ all_chars (fun c => negb (PyStr.is_upper c))
                 (PyStr.slice (Some 1%Z) None text) = true.
Proof.
  apply (underscoredDescription_of_name
           (PyModule {| obj_id := 4; __name__ := "test_HTTP_server";
                        getdoc := None |}) "test_HTTP_server");
    reflexivity.
Defined.

(** ** The summary of the run *)

Lemma run_host_writes (ws : list string) (p : Spec) :
  run_events (map HostWrite ws) p
  = (Ok tt, set_stream (write_all ws (stream p)) p).
Proof.
  revert p. induction ws as [|w ws IH]; intros p; [now destruct p|].
  unfold run_events in *. cbn [map for_each]. unfold bind at 1.
  cbn [run_event]. unfold on_stream_do, modify.
  rewrite IH. reflexivity.
Qed.

Lemma finalize_effect (result : pyobject) (p : Spec) :
  exists p',
    finalize result p = (Ok tt, p')
    /\ OutputStream.on_stream (stream p')
       = (OutputStream.on_stream (stream p)
          ++ match StringIO.buf (OutputStream.capture_stream (stream p)) with
             | "" => [newline]
             | text => [text; newline]
             end)%list
    /\ OutputStream.off_stream (stream p')
       = OutputStream.off_stream (stream p)
    /\ selected_stream p' = OnStream.
Proof.
  eexists. split; [reflexivity|].
  unfold selected_stream. simpl.
  destruct (StringIO.buf (OutputStream.capture_stream (stream p)))
    as [|c text]; unfold OutputStream.writeln, OutputStream.write; simpl;
    repeat split.
  now rewrite <- app_assoc.
Qed.

(** X21.  What the host writes after the last [afterTest], the summary of
    the run, is what [finalize] prints on the host's stream, after the
    text captured before and followed by a newline; the discarding stream
    gets none of it. *)
Theorem summary_is_printed_by_finalize
    (t : Test) (result : pyobject) (ws : list string) (p : Spec) :
  at_end (OutputStream.capture_stream (stream p)) ->
  exists p1 p2 p3,
    afterTest t p = (Ok tt, p1)
    /\ run_events (map HostWrite ws) p1 = (Ok tt, p2)
    /\ finalize result p2 = (Ok tt, p3)
    /\ OutputStream.on_stream (stream p3)
       = (OutputStream.on_stream (stream p)
          ++ match (StringIO.buf (OutputStream.capture_stream (stream p))
                    ++ PyStr.join "" ws)%string with
             | "" => [newline]
             | text => [text; newline]
             end)%list
    /\ OutputStream.off_stream (stream p3)
       = OutputStream.off_stream (stream p)
    /\ selected_stream p3 = OnStream.
Proof.
  intros Hend.
  assert (OutputStream.capture (stream p)
          = OutputStream.set_stream CaptureStream (stream p)) as E.
  { unfold OutputStream.capture.
    rewrite (StringIO_truncate_at_end _ Hend). now destruct (stream p). }
  destruct (write_all_captured ws
              (OutputStream.set_stream CaptureStream (stream p)))
    as (H1 & _ & H3 & H4 & _); [reflexivity | exact Hend |].
  cbv zeta in H1, H3, H4.
  cbn [OutputStream.set_stream OutputStream.capture_stream
       OutputStream.on_stream OutputStream.off_stream] in H1, H3, H4.
  set (p1 := set_stream (OutputStream.capture (stream p)) p).
  set (p2 := set_stream (write_all ws (stream p1)) p1).
  destruct (finalize_effect result p2) as (p3 & Hf & Hon & Hoff & Hsel).
  exists p1, p2, p3. split; [reflexivity|].
  split; [apply run_host_writes|]. split; [exact Hf|].
  subst p2 p1. cbn [stream set_stream] in Hon, Hoff.
  rewrite E in Hon, Hoff. rewrite H1, H3 in Hon. rewrite H4 in Hoff.
  auto.
Qed.

Lemma summary_is_printed_by_finalize_witness :
  exists p1 p2 p3,
    afterTest Samples.singleton_test Samples.plugin = (Ok tt, p1)
    /\ run_events (map HostWrite [ "Ran 1 test"; newline; "OK" ]) p1
       = (Ok tt, p2)
    /\ finalize PyNone p2 = (Ok tt, p3)
    /\ OutputStream.on_stream (stream p3)
       = ([] ++ match ("" ++ PyStr.join "" [ "Ran 1 test"; newline; "OK" ])
                      %string with
                | "" => [newline]
                | text => [text; newline]
                end)%list
    /\ OutputStream.off_stream (stream p3) = []
    /\ selected_stream p3 = OnStream.
Proof.
  apply (summary_is_printed_by_finalize Samples.singleton_test PyNone
           [ "Ran 1 test"; newline; "OK" ] Samples.plugin).
  reflexivity.
Defined.

(** X22.  The position of the capture buffer is at its end when the
    stream is created and stays there through every hook and every host
    write, so nothing written to the buffer ever overwrites or drops
    captured text. *)
Theorem capture_position_stays_at_end :
  (forall host p,
      at_end (OutputStream.capture_stream
                (stream (snd (setOutputStream host p)))))
  /\ (forall p,
        at_end (OutputStream.capture_stream (stream p)) ->
        (forall t,
            at_end (OutputStream.capture_stream
                      (stream (snd (beforeTest t p)))))
        /\ (forall e,
              at_end (OutputStream.capture_stream
                        (stream (snd (run_event e p)))))
        /\ (forall t,
              at_end (OutputStream.capture_stream
                        (stream (snd (afterTest t p)))))
        /\ (forall result,
              at_end (OutputStream.capture_stream
                        (stream (snd (finalize result p)))))).
Proof.
  split; [reflexivity|]. intros p Hend.
  assert (forall color code t status,
             colors !! color = Some code ->
             at_end (OutputStream.capture_stream
                       (stream (snd (_print_spec color t status p)))))
    as Hook.
  { intros color code t status Hcode.
    destruct (_print_spec_outcome color code t status p Hcode)
      as [(lines & p1 & Hrun & _ & _ & _ & Hc & _)|(e & Hrun & _)];
      rewrite Hrun; simpl; [now rewrite Hc | exact Hend]. }
  split; [|split; [|split]].
  - intros t.
    destruct (decide (testContext t = current_context p)) as [E|N].
    { now rewrite (beforeTest_same_context t p E). }
    destruct (doctest_hidden p (testContext t)) eqn:H.
    { now rewrite (beforeTest_hidden_context t p N H). }
    destruct (commute (contextDescription (testContext t))) as [d|e] eqn:Hd.
    + now rewrite (beforeTest_new_context t p d N H Hd).
    + now rewrite (beforeTest_raises t p e N H Hd).
  - intros [text|t|t err|t err]; simpl run_event.
    + unfold on_stream_do, modify. cbn [snd stream set_stream].
      unfold OutputStream.write.
      destruct (OutputStream.stream (stream p)); simpl; try exact Hend.
      now apply StringIO_write_at_end.
    + apply (Hook "green" (String "027" "[1;32m")). reflexivity.
    + apply (Hook "red" (String "027" "[1;31m")). reflexivity.
    + rewrite addError_cases.
      destruct (isinstance _ nose_DeprecatedTest);
        [|destruct (isinstance _ nose_SkipTest)].
      * apply (Hook "yellow" (String "027" "[1;33m")). reflexivity.
      * apply (Hook "yellow" (String "027" "[1;33m")). reflexivity.
      * apply (Hook "red" (String "027" "[1;31m")). reflexivity.
  - intros t. unfold afterTest, on_stream_do, modify.
    cbn [snd stream set_stream]. unfold OutputStream.capture. simpl.
    now rewrite (StringIO_truncate_at_end _ Hend).
  - intros result.
    destruct (StringIO.buf (OutputStream.capture_stream (stream p)))
      as [|c text] eqn:E;
      unfold finalize, on_stream_do, bind, modify, OutputStream.get_captured,
        OutputStream.writeln, OutputStream.write, at_end; simpl;
      rewrite E; reflexivity.
Qed.

Lemma capture_position_stays_at_end_witness :
  at_end (OutputStream.capture_stream
            (stream (snd (run_event (HostWrite "Ran 1 test")
                            (snd (afterTest Samples.singleton_test
                                    Samples.plugin)))))).
Proof.
  apply (proj1 (proj2 (proj2 capture_position_stays_at_end
                         (snd (afterTest Samples.singleton_test
                                 Samples.plugin))
                         eq_refl))).
Defined.
